(** * A verification model of the child-care ETL pipeline (main.py)

    The Python program drives PySpark.  The Python functions of main.py are
    translated one by one (section "The program"); the PySpark operations
    they call are modelled beforehand (module [Spark]) at the level of the
    documented DataFrame API:

    - a DataFrame is an ordered list of column names and a list of rows,
      every row an ordered list of named cells;
    - a column expression is the list of column names it refers to (checked
      when the expression is attached to a frame, as Spark's analyser does)
      and a row-wise evaluation function;
    - Python exceptions and Spark's AnalysisException are results of an
      error monad.

    Column names are compared exactly.  Cells read from CSV
    (inferSchema=False) are strings or nulls. *)

From Stdlib Require Import String Ascii List ZArith Bool Lia Arith.
From Stdlib Require Import Permutation Sorted OrdersEx RelationClasses.
Import ListNotations.
Open Scope string_scope.
Open Scope list_scope.

(** ** Python-level results *)

Module Py.

Inductive Exception : Type :=
| AttributeError      (* a method called on None *)
| IndexError          (* dfs[0] on an empty list *)
| AnalysisException   (* Spark: unresolved or ambiguous column *)
| IOError.            (* the reader or the sink failed *)

Inductive Result (A : Type) : Type :=
| Ok (a : A)
| Raise (e : Exception).

Arguments Ok {A} a.
Arguments Raise {A} e.

Definition bind {A B : Type} (m : Result A) (k : A -> Result B) : Result B :=
  match m with
  | Ok a => k a
  | Raise e => Raise e
  end.

End Py.
Import Py.

Notation "x <- m ;; k" := (Py.bind m (fun x => k))
  (at level 61, m at next level, right associativity).

(** ** Strings (byte strings, as UTF-8 text) *)

Module Text.

Definition empty : string := EmptyString.

Definition is_digit (c : ascii) : bool :=
  let n := nat_of_ascii c in (48 <=? n)%nat && (n <=? 57)%nat.

Definition space : ascii := ascii_of_nat 32.
Definition dquote : ascii := ascii_of_nat 34.

(** The regular expressions of the program are single character classes. *)
Inductive Pattern : Type :=
| NonDigit              (* r'\D' *)
| Lit (c : ascii).      (* a literal character: the quote, the space *)

Definition matches (p : Pattern) (c : ascii) : bool :=
  match p with
  | NonDigit => negb (is_digit c)
  | Lit d => Ascii.eqb c d
  end.

(** java.util.regex replaceAll for a one-character pattern. *)
Fixpoint replace_all (p : Pattern) (repl : string) (s : string) : string :=
  match s with
  | EmptyString => EmptyString
  | String c s' =>
      if matches p c then repl ++ replace_all p repl s'
      else String c (replace_all p repl s')
  end.

(** String.split(regex, -1) for a one-character pattern: every separator
    ends a token, empty tokens are kept. *)
Fixpoint split_all (p : Pattern) (s : string) : list string :=
  match s with
  | EmptyString => [EmptyString]
  | String c s' =>
      if matches p c then EmptyString :: split_all p s'
      else match split_all p s' with
           | t :: ts => String c t :: ts
           | [] => [String c EmptyString]
           end
  end.

Fixpoint ltrim_by (p : ascii -> bool) (s : string) : string :=
  match s with
  | String c s' => if p c then ltrim_by p s' else s
  | EmptyString => EmptyString
  end.

Fixpoint rtrim_by (p : ascii -> bool) (s : string) : string :=
  match s with
  | EmptyString => EmptyString
  | String c s' =>
      match rtrim_by p s' with
      | EmptyString => if p c then EmptyString else String c EmptyString
      | t => String c t
      end
  end.

(** Spark's trim: leading and trailing space characters (0x20). *)
Definition trim (s : string) : string :=
  rtrim_by (Ascii.eqb space) (ltrim_by (Ascii.eqb space) s).

Fixpoint join (sep : string) (l : list string) : string :=
  match l with
  | [] => EmptyString
  | [x] => x
  | x :: rest => x ++ sep ++ join sep rest
  end.

Fixpoint all_digits (s : string) : bool :=
  match s with
  | EmptyString => true
  | String c s' => is_digit c && all_digits s'
  end.

(** Value of a digit string, most significant digit first. *)
Fixpoint digits_value (acc : Z) (s : string) : Z :=
  match s with
  | EmptyString => acc
  | String c s' =>
      digits_value (10 * acc + Z.of_nat (nat_of_ascii c - 48)) s'
  end.

(** os.path.basename: what follows the last slash. *)
Fixpoint basename (s : string) : string :=
  match s with
  | EmptyString => EmptyString
  | String c s' =>
      if existsb (Ascii.eqb (ascii_of_nat 47)) (list_ascii_of_string s')
      then basename s'
      else if Ascii.eqb c (ascii_of_nat 47) then s' else s
  end.

(** What precedes the first dot, and what follows it. *)
Fixpoint cut_at_dot (s : string) : string * string :=
  match s with
  | EmptyString => (EmptyString, EmptyString)
  | String c s' =>
      if Ascii.eqb c (ascii_of_nat 46) then (EmptyString, s')
      else let (a, b) := cut_at_dot s' in (String c a, b)
  end.

Definition is_ws (c : ascii) : bool := (nat_of_ascii c <=? 32)%nat.

(** Spark's cast of a string to a 32-bit integer (non-ANSI mode): blanks
    around the number are ignored, a sign may lead, a fractional part made
    of digits is truncated; anything else, and any value outside the int
    range, gives no result. *)
Definition to_int (s : string) : option Z :=
  let t := rtrim_by is_ws (ltrim_by is_ws s) in
  let '(neg, body) :=
    match t with
    | String c r =>
        if Ascii.eqb c (ascii_of_nat 45) then (true, r)
        else if Ascii.eqb c (ascii_of_nat 43) then (false, r)
        else (false, t)
    | EmptyString => (false, t)
    end in
  match body with
  | EmptyString => None
  | _ =>
      let (ip, fp) := cut_at_dot body in
      if all_digits ip && all_digits fp then
        let n := digits_value 0 ip in
        let z := if neg then (- n)%Z else n in
        if ((-2147483648 <=? z) && (z <=? 2147483647))%Z then Some z
        else None
      else None
  end.

Definition leb (a b : string) : bool :=
  match String_as_OT.compare a b with
  | Gt => false
  | _ => true
  end.

End Text.

(** ** The DataFrame API *)

Module Spark.

Inductive DataType : Type :=
| StringType | TimestampType | IntegerType | BooleanType | DateType.

(** A cell.  Dates are day numbers, timestamps instants; an array holds
    nullable strings (the only arrays the program builds). *)
Inductive Value : Type :=
| Null
| Bool (b : bool)
| Int (z : Z)
| Date (d : Z)
| Timestamp (t : Z)
| Str (s : string)
| Arr (l : list (option string)).

Definition Value_eq_dec (a b : Value) : {a = b} + {a <> b}.
Proof.
  decide equality;
    first [ apply Bool.bool_dec | apply Z.eq_dec | apply string_dec
          | apply list_eq_dec; decide equality; apply string_dec ].
Defined.

Definition value_eqb (a b : Value) : bool :=
  if Value_eq_dec a b then true else false.

Definition type_tag (v : Value) : nat :=
  match v with
  | Null => 0 | Bool _ => 1 | Int _ => 2 | Date _ => 3
  | Timestamp _ => 4 | Str _ => 5 | Arr _ => 6
  end.

(** Ascending order of cells, null first.  A column holds cells of one
    type; cells of different types are ordered by type. *)
Definition value_leb (a b : Value) : bool :=
  match a, b with
  | Bool x, Bool y => implb x y
  | Int x, Int y => (x <=? y)%Z
  | Date x, Date y => (x <=? y)%Z
  | Timestamp x, Timestamp y => (x <=? y)%Z
  | Str x, Str y => Text.leb x y
  | _, _ => (type_tag a <=? type_tag b)%nat
  end.

Definition Row : Type := list (string * Value).

Record DataFrame : Type := mkDF {
  columns : list string;
  rows : list Row
}.

Definition has_name (name : string) (cell : string * Value) : bool :=
  String.eqb (fst cell) name.

Definition mem (name : string) (names : list string) : bool :=
  existsb (String.eqb name) names.

(** The cell of a row under a name (null when the row has none). *)
Definition row_get (name : string) (r : Row) : Value :=
  match find (has_name name) r with
  | Some cell => snd cell
  | None => Null
  end.

Definition row_with (name : string) (v : Value) (r : Row) : Row :=
  if existsb (has_name name) r
  then map (fun cell => if has_name name cell then (name, v) else cell) r
  else r ++ [(name, v)].

Definition cols_with (name : string) (cols : list string) : list string :=
  if mem name cols then cols else cols ++ [name].

(** *** Column expressions *)

Record Column : Type := mkCol {
  refs : list string;
  eval : Row -> Value
}.

Definition occurrences (name : string) (cols : list string) : nat :=
  length (filter (String.eqb name) cols).

(** A reference resolves when exactly one column has the name. *)
Definition resolves (cols : list string) (name : string) : bool :=
  (occurrences name cols =? 1)%nat.

Definition analyze (cols : list string) (names : list string)
  : Result unit :=
  if forallb (resolves cols) names then Ok tt else Raise AnalysisException.

Definition col (name : string) : Column :=
  mkCol [name] (row_get name).

Definition lit (v : Value) : Column :=
  mkCol [] (fun _ => v).

(** The string functions of the program are applied to string columns: a
    string cell is transformed, a null cell stays null (as does, in this
    model, a cell that is no string). *)
Definition on_string (f : string -> Value) (v : Value) : Value :=
  match v with
  | Str s => f s
  | _ => Null
  end.

Definition regexp_replace (c : Column) (p : Text.Pattern) (repl : string)
  : Column :=
  mkCol (refs c)
    (fun r => on_string (fun s => Str (Text.replace_all p repl s)) (eval c r)).

Definition trim (c : Column) : Column :=
  mkCol (refs c) (fun r => on_string (fun s => Str (Text.trim s)) (eval c r)).

Definition split (c : Column) (p : Text.Pattern) : Column :=
  mkCol (refs c)
    (fun r => on_string (fun s => Arr (map Some (Text.split_all p s)))
                (eval c r)).

(** Indexing an array; out of range, and on null, the result is null. *)
Definition getItem (c : Column) (i : nat) : Column :=
  mkCol (refs c)
    (fun r => match eval c r with
              | Arr l => match nth_error l i with
                         | Some (Some s) => Str s
                         | _ => Null
                         end
              | _ => Null
              end).

Definition isNotNull (c : Column) : Column :=
  mkCol (refs c)
    (fun r => match eval c r with Null => Bool false | _ => Bool true end).

(** Equality test; null when a side is null. *)
Definition eq (a b : Column) : Column :=
  mkCol (refs a ++ refs b)
    (fun r => match eval a r, eval b r with
              | Null, _ | _, Null => Null
              | x, y => Bool (value_eqb x y)
              end).

(** when(cond, v).otherwise(d): v where cond is true, d elsewhere. *)
Definition when_otherwise (cond v d : Column) : Column :=
  mkCol (refs cond ++ refs v ++ refs d)
    (fun r => match eval cond r with
              | Bool true => eval v r
              | _ => eval d r
              end).

(** when(cond, v) without otherwise: null where cond is not true. *)
Definition when (cond v : Column) : Column :=
  when_otherwise cond v (lit Null).

(** Casts.  The program casts null literals (to any type), string and
    timestamp literals to their own type, and strings to integers; other
    conversions do not occur and are left null. *)
Definition cast_value (ty : DataType) (v : Value) : Value :=
  match ty, v with
  | _, Null => Null
  | StringType, Str s => Str s
  | IntegerType, Str s =>
      match Text.to_int s with Some z => Int z | None => Null end
  | IntegerType, Int z => Int z
  | DateType, Date d => Date d
  | TimestampType, Timestamp t => Timestamp t
  | BooleanType, Bool b => Bool b
  | _, _ => Null
  end.

Definition cast (c : Column) (ty : DataType) : Column :=
  mkCol (refs c) (fun r => cast_value ty (eval c r)).

(** to_date with a pattern; [parse] is the engine's date parser, which
    gives the day number or nothing. *)
Definition to_date (parse : string -> string -> option Z)
    (c : Column) (format : string) : Column :=
  mkCol (refs c)
    (fun r => on_string (fun s => match parse s format with
                                  | Some d => Date d
                                  | None => Null
                                  end) (eval c r)).

Definition array (cs : list Column) : Column :=
  mkCol (flat_map refs cs)
    (fun r => Arr (map (fun c => match eval c r with
                                 | Str s => Some s
                                 | _ => None
                                 end) cs)).

Fixpoint somes (l : list (option string)) : list string :=
  match l with
  | [] => []
  | Some s :: l' => s :: somes l'
  | None :: l' => somes l'
  end.

(** The strings an argument of concat_ws contributes: a string itself, an
    array its non-null elements, null nothing. *)
Definition ws_parts (v : Value) : list string :=
  match v with
  | Str s => [s]
  | Arr l => somes l
  | _ => []
  end.

Definition concat_ws (sep : string) (cs : list Column) : Column :=
  mkCol (flat_map refs cs)
    (fun r => Str (Text.join sep (flat_map (fun c => ws_parts (eval c r)) cs))).

(** *** Frames *)

Definition withColumn (df : DataFrame) (name : string) (c : Column)
  : Result DataFrame :=
  _ <- analyze (columns df) (refs c) ;;
  Ok (mkDF (cols_with name (columns df))
           (map (fun r => row_with name (eval c r) r) (rows df))).

Definition rename_name (existing new name : string) : string :=
  if String.eqb name existing then new else name.

Definition withColumnRenamed (df : DataFrame) (existing new : string)
  : DataFrame :=
  mkDF (map (rename_name existing new) (columns df))
       (map (map (fun cell => (rename_name existing new (fst cell), snd cell)))
            (rows df)).

(** drop by names; a name the frame does not have is ignored. *)
Definition drop (df : DataFrame) (names : list string) : DataFrame :=
  mkDF (filter (fun c => negb (mem c names)) (columns df))
       (map (filter (fun cell => negb (mem (fst cell) names))) (rows df)).

Definition project (names : list string) (r : Row) : Row :=
  map (fun n => (n, row_get n r)) names.

Definition select (df : DataFrame) (names : list string)
  : Result DataFrame :=
  _ <- analyze (columns df) names ;;
  Ok (mkDF names (map (project names) (rows df))).

Definition filter_rows (df : DataFrame) (cond : Column)
  : Result DataFrame :=
  _ <- analyze (columns df) (refs cond) ;;
  Ok (mkDF (columns df)
           (filter (fun r => value_eqb (eval cond r) (Bool true)) (rows df))).

Fixpoint distinct (names : list string) : bool :=
  match names with
  | [] => true
  | n :: rest => negb (mem n rest) && distinct rest
  end.

(** unionByName(other, allowMissingColumns=True): the columns of the left
    frame, then those only the right frame has; a row is null where its
    frame has no such column.  Duplicate names on a side are refused. *)
Definition unionByName (df other : DataFrame) : Result DataFrame :=
  if distinct (columns df) && distinct (columns other) then
    let cols := columns df
                ++ filter (fun c => negb (mem c (columns df))) (columns other) in
    Ok (mkDF cols (map (project cols) (rows df)
                   ++ map (project cols) (rows other)))
  else Raise AnalysisException.

(** *** Windows *)

(** Window.partitionBy(names).orderBy(col(name).desc()) *)
Record WindowSpec : Type := mkWindow {
  partition_cols : list string;
  order_desc : string
}.

Definition key_of (names : list string) (r : Row) : list Value :=
  map (fun n => row_get n r) names.

Definition key_eqb (k1 k2 : list Value) : bool :=
  if list_eq_dec Value_eq_dec k1 k2 then true else false.

(** The partitions of a window: the rows of equal key, null equal to
    null, one partition per key. *)
Definition partitions (names : list string) (rs : list Row)
  : list (list Row) :=
  map (fun k => filter (fun r => key_eqb (key_of names r) k) rs)
      (nodup (list_eq_dec Value_eq_dec) (map (key_of names) rs)).

(** desc(): descending, nulls last; [before name r1 r2] says that r1 may
    stand before r2. *)
Definition before (name : string) (r1 r2 : Row) : bool :=
  value_leb (row_get name r2) (row_get name r1).

(** The engine's sort: any function that, for a total and transitive
    comparison, returns its input rearranged in order.  How rows that
    compare equal are arranged is the engine's choice. *)
Definition Sorter : Type := (Row -> Row -> bool) -> list Row -> list Row.

Definition sorts (sort : Sorter) : Prop :=
  forall leb : Row -> Row -> bool,
    (forall a b, leb a b = true \/ leb b a = true) ->
    (forall a b c, leb a b = true -> leb b c = true -> leb a c = true) ->
    forall l, Permutation l (sort leb l)
              /\ StronglySorted (fun a b => leb a b = true) (sort leb l).

(** row_number(): 1, 2, ... along the sorted partition. *)
Definition number_rows (name : string) (p : list Row) : list Row :=
  map (fun ir => row_with name (Int (Z.of_nat (fst ir))) (snd ir))
      (combine (seq 1 (length p)) p).

(** df.withColumn(name, row_number().over(w)) *)
Definition withRowNumber (sort : Sorter) (df : DataFrame) (name : string)
    (w : WindowSpec) : Result DataFrame :=
  _ <- analyze (columns df) (partition_cols w ++ [order_desc w]) ;;
  Ok (mkDF (cols_with name (columns df))
           (flat_map (fun p => number_rows name (sort (before (order_desc w)) p))
                     (partitions (partition_cols w) (rows df)))).

End Spark.

Import Spark.

(** ** The program *)

(** Monadic loops over a Python list. *)
Fixpoint foldM {A B : Type} (f : A -> B -> Result A) (l : list B) (a : A)
  : Result A :=
  match l with
  | [] => Ok a
  | b :: rest => a' <- f a b ;; foldM f rest a'
  end.

Fixpoint mapM {A B : Type} (f : A -> Result B) (l : list A)
  : Result (list B) :=
  match l with
  | [] => Ok []
  | a :: rest => b <- f a ;; bs <- mapM f rest ;; Ok (b :: bs)
  end.

(** dict.get on a dictionary kept in insertion order. *)
Fixpoint dict_get {V : Type} (d : list (string * V)) (key : string)
  : option V :=
  match d with
  | [] => None
  | (k, v) :: rest => if String.eqb k key then Some v else dict_get rest key
  end.

(** A method call on a value that may be None. *)
Definition the_frame (df : option DataFrame) : Result DataFrame :=
  match df with
  | Some d => Ok d
  | None => Raise AttributeError
  end.

Definition target_columns : list string :=
  [ "accepts_financial_aid";
    "ages_served";
    "capacity";
    "certificate_expiration_date";
    "city";
    "address1";
    "address2";
    "company";
    "phone";
    "phone2";
    "county";
    "curriculum_type";
    "email";
    "first_name";
    "language";
    "last_name";
    "license_status";
    "license_issued";
    "license_number";
    "license_renewed";
    "license_type";
    "licensee_name";
    "max_age";
    "min_age";
    "operator";
    "provider_id";
    "schedule";
    "state";
    "title";
    "website_address";
    "zip";
    "facility_type";
    "source";
    (* added metadata columns *)
    "etl_load_time";
    "version_number";
    "source_file_name" ].

Definition column_types : list (string * DataType) :=
  [ ("accepts_financial_aid", BooleanType);
    ("ages_served", StringType);
    ("capacity", IntegerType);
    ("certificate_expiration_date", DateType);
    ("city", StringType);
    ("address1", StringType);
    ("address2", StringType);
    ("company", StringType);
    ("phone", StringType);
    ("phone2", StringType);
    ("county", StringType);
    ("curriculum_type", StringType);
    ("email", StringType);
    ("first_name", StringType);
    ("language", StringType);
    ("last_name", StringType);
    ("license_status", StringType);
    ("license_issued", DateType);
    ("license_number", IntegerType);
    ("license_renewed", DateType);
    ("license_type", StringType);
    ("licensee_name", StringType);
    ("max_age", IntegerType);
    ("min_age", IntegerType);
    ("operator", StringType);
    ("provider_id", StringType);
    ("schedule", StringType);
    ("state", StringType);
    ("title", StringType);
    ("website_address", StringType);
    ("zip", StringType);
    ("facility_type", StringType);
    ("source", StringType);
    ("etl_load_time", TimestampType);
    ("version_number", StringType);
    ("source_file_name", StringType) ].

(** strip out non-numbers *)
Definition clean_phone (df : DataFrame) (phone_col : string)
  : Result DataFrame :=
  withColumn df phone_col
    (regexp_replace (col phone_col) Text.NonDigit Text.empty).

(** special case for 1st file *)
Definition combine_age_columns (df : DataFrame) (age_columns : list string)
  : Result DataFrame :=
  let age_cols :=
    map col (filter (fun c => mem c (columns df)) age_columns) in
  df <- withColumn df "ages_served" (concat_ws ", " age_cols) ;;
  Ok (drop df age_columns).

(** special case for 3rd file *)
Definition combine_age_columns_source3 (df : DataFrame)
    (age_columns : list string) : Result DataFrame :=
  let age_exprs :=
    map (fun age_col => when (eq (col age_col) (lit (Str "Y")))
                             (lit (Str age_col)))
        (filter (fun c => mem c (columns df)) age_columns) in
  df <- withColumn df "ages_array" (array age_exprs) ;;
  df <- withColumn df "ages_served" (concat_ws ", " [col "ages_array"]) ;;
  Ok (drop df (age_columns ++ ["ages_array"])).

(** license name handling: the body of the test on licensee_name in
    process_csv_file *)
Definition license_name_handling (df : DataFrame) : Result DataFrame :=
  df <- withColumn df "licensee_name" (trim (col "licensee_name")) ;;
  df <- withColumn df "name_parts"
          (split (col "licensee_name") (Text.Lit Text.space)) ;;
  df <- withColumn df "first_name" (getItem (col "name_parts") 0) ;;
  df <- withColumn df "last_name"
          (when_otherwise
             (isNotNull (getItem (col "name_parts") 1))
             (getItem (col "name_parts") 1)
             (lit (Str Text.empty))) ;;
  Ok (drop df ["name_parts"]).

(** cast numeric fields: the two tests of process_csv_file on capacity and
    license_number *)
Definition cast_numeric_fields (df : DataFrame) : Result DataFrame :=
  df <- (if mem "capacity" (columns df)
         then withColumn df "capacity" (cast (col "capacity") IntegerType)
         else Ok df) ;;
  if mem "license_number" (columns df)
  then withColumn df "license_number"
         (cast (regexp_replace (col "license_number")
                  Text.NonDigit Text.empty) IntegerType)
  else Ok df.

(** add csv files if needed *)
Definition get_csv_files : list (string * string) :=
  [ ("source1", "csv_files/Technical Exercise Data - source1.csv");
    ("source2", "csv_files/Technical Exercise Data - source2.csv");
    ("source3", "csv_files/Technical Exercise Data - source3.csv") ].

(** put data frames together *)
Definition union_all_dataframes (dfs : list (option DataFrame))
  : Result (option DataFrame) :=
  match dfs with
  | [] => Raise IndexError
  | df0 :: rest =>
      foldM (fun df_all df =>
               l <- the_frame df_all ;;
               r <- the_frame df ;;
               u <- unionByName l r ;;
               Ok (Some u))
            rest df0
  end.

(** select columns needed *)
Definition select_target_columns (df_all : DataFrame)
    (target_columns : list string) : Result DataFrame :=
  select df_all target_columns.

(** The first loop of transform_df: rename columns with mapping. *)
Definition rename_columns (df : DataFrame) (mapping : list (string * string))
  : DataFrame :=
  fold_left (fun df m =>
               if mem (fst m) (columns df)
               then withColumnRenamed df (fst m) (snd m)
               else df)
            mapping df.

(** One turn of the second loop of transform_df. *)
Definition pad_column (df : DataFrame) (col_name : string)
  : Result DataFrame :=
  if negb (mem col_name (columns df))
  then
    let data_type :=
      match dict_get column_types col_name with
      | Some t => t
      | None => StringType
      end in
    withColumn df col_name (cast (lit Null) data_type)
  else Ok df.

(** The second loop of transform_df: put null in missing columns. *)
Definition pad_missing_columns (df : DataFrame) : Result DataFrame :=
  foldM pad_column target_columns df.

Section Pipeline.

(** What the program takes from its environment: the mapping file
    column_map.json, the CSV reader of the Spark session, the engine's
    date parser, clock and sort, and the JDBC sink. *)
Variable column_mappings : list (string * list (string * string)).
Variable read_csv : string -> Result DataFrame.
Variable parse_date : string -> string -> option Z.
Variable current_timestamp : Z.
Variable sort : Sorter.
Variable getenv : string -> option string.
Variable jdbc_write : DataFrame -> string -> string -> string -> Result unit.

Definition transform_df (df : DataFrame) (mapping : list (string * string))
    (source_name : string) (source_file_name : string)
  : Result DataFrame :=
  (* rename columns with mapping *)
  let df := rename_columns df mapping in
  (* put null in missing columns *)
  df <- pad_missing_columns df ;;
  df <- withColumn df "source" (cast (lit (Str source_name)) StringType) ;;
  (* add metadata columns *)
  df <- withColumn df "etl_load_time"
          (cast (lit (Timestamp current_timestamp)) TimestampType) ;;
  df <- withColumn df "version_number" (cast (lit (Str "1.0")) StringType) ;;
  withColumn df "source_file_name"
    (cast (lit (Str (Text.basename source_file_name))) StringType).

(** main processor; None when the source has no mapping *)
Definition process_csv_file (file_path source_name : string)
  : Result (option DataFrame) :=
  df <- read_csv file_path ;;
  match dict_get column_mappings source_name with
  | None => Ok None
  | Some mapping =>
      (* special case *)
      df <- (if String.eqb source_name "source3"
             then withColumn df "Operation Name"
                    (regexp_replace (col "Operation Name")
                       (Text.Lit Text.dquote) Text.empty)
             else Ok df) ;;
      df <- transform_df df mapping source_name file_path ;;
      df <- clean_phone df "phone" ;;
      (* license name handling *)
      df <- (if mem "licensee_name" (columns df)
             then license_name_handling df
             else Ok df) ;;
      (* convert date columns to proper date format *)
      let date_columns := ["license_issued"; "certificate_expiration_date"] in
      let date_format := "M/d/yy" in
      df <- foldM (fun df date_col =>
                     if mem date_col (columns df)
                     then withColumn df date_col
                            (to_date parse_date (col date_col) date_format)
                     else Ok df)
                  date_columns df ;;
      (* cast numeric fields *)
      df <- cast_numeric_fields df ;;
      (* handle age columns *)
      df <- (if String.eqb source_name "source2"
             then combine_age_columns df
                    ["Ages Accepted 1"; "AA2"; "AA3"; "AA4"]
             else if String.eqb source_name "source3"
             then combine_age_columns_source3 df
                    ["Infant"; "Toddler"; "Preschool"; "School"]
             else Ok df) ;;
      Ok (Some df)
  end.

(** process every csv file *)
Definition process_all_files (csv_files : list (string * string))
  : Result (list (option DataFrame)) :=
  mapM (fun entry => process_csv_file (snd entry) (fst entry)) csv_files.

(** window function to remove duplicates *)
Definition deduplicate_dataframe (df_all : option DataFrame)
  : Result DataFrame :=
  df <- the_frame df_all ;;
  let window_spec := mkWindow ["phone"; "address1"] "license_issued" in
  df <- withRowNumber sort df "row_num" window_spec ;;
  df <- filter_rows df (eq (col "row_num") (lit (Int 1))) ;;
  Ok (drop df ["row_num"]).

(** write to the pgdb: a failure of the sink is raised again (the
    connection properties are left out) *)
Definition write_to_postgres (df : DataFrame) (db_url table_name mode : string)
  : Result unit :=
  jdbc_write df db_url table_name mode.

(** The run; its result is the frame handed to the sink.  After the
    selection df_all is a frame, never None, so the write always takes
    place. *)
Definition main : Result DataFrame :=
  let csv_files := get_csv_files in
  dfs <- process_all_files csv_files ;;
  df_all <- union_all_dataframes dfs ;;
  df_all <- deduplicate_dataframe df_all ;;
  df_all <- select_target_columns df_all target_columns ;;
  (* put dataframe into database *)
  let db_url :=
    match getenv "DB_URL" with
    | Some url => url
    | None => "jdbc:postgresql://localhost:5433/ETL"
    end in
  _ <- write_to_postgres df_all db_url "child_care_info" "overwrite" ;;
  Ok df_all.

End Pipeline.

(** ** Two sorts an engine may use *)

Fixpoint insert_row (leb : Row -> Row -> bool) (x : Row) (l : list Row)
  : list Row :=
  match l with
  | [] => [x]
  | y :: l' => if leb x y then x :: l else y :: insert_row leb x l'
  end.

(** Insertion sort; rows that compare equal keep their input order. *)
Definition stable_sort : Sorter :=
  fun leb l => fold_right (insert_row leb) [] l.

(** The same sort fed from the other end: rows that compare equal come out
    in the reverse of their input order. *)
Definition reversing_sort : Sorter :=
  fun leb l => stable_sort leb (rev l).

(** ** Test data *)

Module Sample.

Definition phone_frame : DataFrame :=
  mkDF ["company"; "phone"; "phone2"]
       [ [("company", Str "Kids Inc"); ("phone", Str "(555) 123-4567");
          ("phone2", Str "555.000.1111")];
         [("company", Str "Tots"); ("phone", Null); ("phone2", Null)] ].

Definition record (company : string) (phone address1 license_issued : Value)
  : Row :=
  [("company", Str company); ("phone", phone); ("address1", address1);
   ("license_issued", license_issued)].

Definition frame_of (rs : list Row) : DataFrame :=
  mkDF ["company"; "phone"; "address1"; "license_issued"] rs.

(** A record that has its first and last name, and no licensee name. *)
Definition names_frame : DataFrame :=
  mkDF ["licensee_name"; "first_name"; "last_name"]
       [ [("licensee_name", Null); ("first_name", Str "Ann");
          ("last_name", Str "Lee")];
         [("licensee_name", Str " Jane Q Doe "); ("first_name", Null);
          ("last_name", Null)];
         [("licensee_name", Str "Madonna"); ("first_name", Null);
          ("last_name", Null)] ].


Definition flags_frame : DataFrame :=
  mkDF ["Infant"; "Toddler"; "ages_served"]
       [ [("Infant", Str "Y"); ("Toddler", Str "N"); ("ages_served", Null)];
         [("Infant", Str "Y"); ("Toddler", Str "Y"); ("ages_served", Null)] ].

(** A run: three sources, the first two observing one facility. *)
Definition mapping1 : list (string * string) :=
  [("Name", "company"); ("First", "first_name"); ("Last", "last_name");
   ("Phone", "phone"); ("Address", "address1"); ("Issued", "license_issued");
   ("Cap", "capacity")].

Definition column_mappings : list (string * list (string * string)) :=
  [ ("source1", mapping1);
    ("source2", [("Company", "company");
                 ("Primary Caregiver", "licensee_name");
                 ("Phone", "phone"); ("Address1", "address1");
                 ("License Date", "license_issued");
                 ("License Number", "license_number")]);
    ("source3", [("Operation Name", "company"); ("Phone", "phone");
                 ("Address", "address1"); ("Issue Date", "license_issued")]) ].

Definition csv1 : DataFrame :=
  mkDF ["Name"; "First"; "Last"; "Phone"; "Address"; "Issued"; "Cap"]
       [ [("Name", Str "Kids Inc"); ("First", Str "Ann"); ("Last", Str "Lee");
          ("Phone", Str "(555) 123-4567"); ("Address", Str "1 Main St");
          ("Issued", Str "1/1/20"); ("Cap", Str "40")] ].

Definition csv2 : DataFrame :=
  mkDF ["Company"; "Primary Caregiver"; "Phone"; "Address1"; "License Date";
        "License Number"; "Ages Accepted 1"; "AA2"; "AA3"; "AA4"]
       [ [("Company", Str "Kids Incorporated");
          ("Primary Caregiver", Str "Jane Doe");
          ("Phone", Str "555-123-4567"); ("Address1", Str "1 Main St");
          ("License Date", Str "1/1/21"); ("License Number", Str "C-12345");
          ("Ages Accepted 1", Str "0-2"); ("AA2", Str "3-5"); ("AA3", Null);
          ("AA4", Null)] ].

Definition csv3 : DataFrame :=
  mkDF ["Operation Name"; "Phone"; "Address"; "Issue Date"; "Infant";
        "Toddler"; "Preschool"; "School"]
       [ [("Operation Name", Str "Little Stars"); ("Phone", Str "555 987 6543");
          ("Address", Str "9 Oak Ave"); ("Issue Date", Str "1/1/20");
          ("Infant", Str "Y"); ("Toddler", Str "N"); ("Preschool", Str "Y");
          ("School", Str "N")] ].

Definition read_csv (path : string) : Result DataFrame :=
  match dict_get
          [ ("csv_files/Technical Exercise Data - source1.csv", csv1);
            ("csv_files/Technical Exercise Data - source2.csv", csv2);
            ("csv_files/Technical Exercise Data - source3.csv", csv3) ]
          path with
  | Some df => Ok df
  | None => Raise IOError
  end.

(** The date parser on the dates of the sample, pattern M/d/yy. *)
Definition parse_date (s format : string) : option Z :=
  if String.eqb format "M/d/yy"
  then dict_get [("1/1/20", 18262%Z); ("1/1/21", 18628%Z)] s
  else None.

Definition getenv (name : string) : option string := None.

Definition jdbc_write (df : DataFrame) (url table mode : string)
  : Result unit :=
  Ok tt.

(** The same run when column_map.json has no entry for source2. *)
Definition column_mappings_without_source2
  : list (string * list (string * string)) :=
  filter (fun entry => negb (String.eqb (fst entry) "source2"))
         column_mappings.

(** 2020-01-01 and 2021-01-01 as day numbers *)
Definition d2020 : Value := Date 18262.
Definition d2021 : Value := Date 18628.

Definition older : Row :=
  record "Kids Inc" (Str "5551234567") (Str "1 Main St") d2020.
Definition newer : Row :=
  record "Kids Incorporated" (Str "5551234567") (Str "1 Main St") d2021.
Definition undated : Row :=
  record "Kids" (Str "5551234567") (Str "1 Main St") Null.

(** One facility seen three times, under different names. *)
Definition pair_frame : DataFrame := frame_of [older; undated; newer].




End Sample.

(** ** Reference functions for the statements *)

(** The digits of a string, in order. *)
Definition digits_only (s : string) : string :=
  string_of_list_ascii (filter Text.is_digit (list_ascii_of_string s)).

(** The cells of a row other than those of one name. *)
Definition other_cells (name : string) (r : Row) : Row :=
  filter (fun cell => negb (has_name name cell)) r.

(** What clean_phone makes of a cell, in the words of the specification:
    a string keeps its digits, null stays null. *)
Definition phone_normalized (before after : Value) : Prop :=
  match before with
  | Str s => after = Str (digits_only s)
  | Null => after = Null
  | _ => True
  end.

(** The tokens of a licensee name: trimmed, cut at every space. *)
Definition name_tokens (s : string) : list string :=
  Text.split_all (Text.Lit Text.space) (Text.trim s).


(** What the name handling makes of a row, given its licensee name: a
    string is trimmed and cut into tokens, the first being the first name
    and the second, when there is one, the last name; for anything else
    the first name is null and the last name the empty string. *)
Definition name_split (licensee_name : Value) (r' : Row) : Prop :=
  match licensee_name with
  | Str s =>
      row_get "licensee_name" r' = Str (Text.trim s)
      /\ row_get "first_name" r' = Str (nth 0 (name_tokens s) Text.empty)
      /\ row_get "last_name" r' = Str (nth 1 (name_tokens s) Text.empty)
  | _ =>
      row_get "licensee_name" r' = Null
      /\ row_get "first_name" r' = Null
      /\ row_get "last_name" r' = Str Text.empty
  end.


(** The labels of a row: the listed columns the frame has whose cell is
    the flag Y, in the order of the list. *)
Definition flag_labels (cols age_columns : list string) (r : Row)
  : list string :=
  filter (fun c => value_eqb (row_get c r) (Str "Y"))
         (filter (fun c => mem c cols) age_columns).

(** *** Deduplication *)

(** The test of the filter of deduplicate_dataframe: row_num == 1. *)
Definition first_row_test (name : string) (r : Row) : bool :=
  value_eqb (eval (eq (col name) (lit (Int 1))) r) (Bool true).

(** The rows deduplication keeps: of every partition the row the sort puts
    first, without the helper column. *)
Definition survivors (sort : Sorter) (rs : list Row) : list Row :=
  flat_map (fun p => map (other_cells "row_num")
                       (firstn 1 (sort (before "license_issued") p)))
           (partitions ["phone"; "address1"] rs).

Definition identity_key (r : Row) : list Value :=
  key_of ["phone"; "address1"] r.

Definition license_issued (r : Row) : Value := row_get "license_issued" r.

(** The records of a list that have the identity key of [r]. *)
Definition group (rs : list Row) (r : Row) : list Row :=
  filter (fun o => key_eqb (identity_key o) (identity_key r)) rs.

(** On dates: d1 is not later than d2, a null date being before every
    date. *)
Definition not_later (d1 d2 : Value) : Prop :=
  match d1, d2 with
  | Date a, Date b => (a <= b)%Z
  | Date _, Null => False
  | _, _ => True
  end.

(** Of the group of [r] in [rs], [out] holds one record: a record of the
    group than which none is later, and which is the record with the
    latest date when there is a single such record. *)
Definition latest_survives (rs out : list Row) (r : Row) : Prop :=
  exists s,
    In s rs
    /\ identity_key s = identity_key r
    /\ group out r = [other_cells "row_num" s]
    /\ (forall r2, In r2 rs -> identity_key r2 = identity_key r ->
                   not_later (license_issued r2) (license_issued s))
    /\ (forall r1, In r1 rs -> identity_key r1 = identity_key r ->
                   (forall r2, In r2 rs -> identity_key r2 = identity_key r ->
                               r2 <> r1 ->
                               value_leb (license_issued r1) (license_issued r2)
                               = false) ->
                   s = r1).




Definition Row_eq_dec (a b : Row) : {a = b} + {a <> b}.
Proof.
  apply list_eq_dec. intros [k x] [k' x'].
  destruct (string_dec k k') as [->|]; [|right; congruence].
  destruct (Value_eq_dec x x') as [->|]; [left; reflexivity|right; congruence].
Defined.

(** The columns transform_df stamps after padding. *)
Definition stamped_columns : list string :=
  ["source"; "etl_load_time"; "version_number"; "source_file_name"].


(** What transform_df guarantees of its result [df'], [renamed] being the
    frame after the renaming: every target column is there, and a target
    column the renamed frame lacked, other than the stamped ones, is null
    in every record. *)
Definition padded (renamed df' : DataFrame) : Prop :=
  (forall c, In c target_columns -> mem c (columns df') = true)
  /\ (forall c, In c target_columns ->
                mem c (columns renamed) = false ->
                mem c stamped_columns = false ->
                Forall (fun r => row_get c r = Null) (rows df')).

Module SampleOut.

(** The first source after transform_df. *)
Definition transformed1 : DataFrame :=
  Eval vm_compute in
    match transform_df 0 Sample.csv1 Sample.mapping1 "source1"
            "csv_files/Technical Exercise Data - source1.csv" with
    | Ok df => df
    | Raise _ => mkDF [] []
    end.

(** The frame the sample run hands to the sink. *)
Definition run_result : DataFrame :=
  Eval vm_compute in
    match main Sample.column_mappings Sample.read_csv Sample.parse_date 0
            stable_sort Sample.getenv Sample.jdbc_write with
    | Ok df => df
    | Raise _ => mkDF [] []
    end.

Definition names_frame_split : DataFrame :=
  mkDF ["licensee_name"; "first_name"; "last_name"]
       [ [("licensee_name", Null); ("first_name", Null);
          ("last_name", Str Text.empty)];
         [("licensee_name", Str "Jane Q Doe"); ("first_name", Str "Jane");
          ("last_name", Str "Q")];
         [("licensee_name", Str "Madonna"); ("first_name", Str "Madonna");
          ("last_name", Str Text.empty)] ].


Definition flags_frame_ages : DataFrame :=
  mkDF ["ages_served"]
       [ [("ages_served", Str "Infant")];
         [("ages_served", Str "Infant, Toddler")] ].

Definition phone_frame_clean : DataFrame :=
  mkDF ["company"; "phone"; "phone2"]
       [ [("company", Str "Kids Inc"); ("phone", Str "5551234567");
          ("phone2", Str "555.000.1111")];
         [("company", Str "Tots"); ("phone", Null); ("phone2", Null)] ].

End SampleOut.

Definition stamped (source_name : string) (now : Z) (file_path : string)
    (r : Row) : Prop :=
  row_get "source" r = Str source_name
  /\ row_get "etl_load_time" r = Timestamp now
  /\ row_get "version_number" r = Str "1.0"
  /\ row_get "source_file_name" r = Str (Text.basename file_path).

Definition bucket_labels (cols age_columns : list string) (r : Row)
  : list string :=
  flat_map (fun c => ws_parts (row_get c r))
           (filter (fun c => mem c cols) age_columns).

Definition buckets_frame : DataFrame :=
  mkDF ["Ages Accepted 1"; "AA2"; "ages_served"]
       [ [("Ages Accepted 1", Str "0-2"); ("AA2", Str "3-5");
          ("ages_served", Null)];
         [("Ages Accepted 1", Null); ("AA2", Str "3-5"); ("ages_served", Null)];
         [("Ages Accepted 1", Null); ("AA2", Null); ("ages_served", Null)] ].

Definition buckets_frame_ages : DataFrame :=
  mkDF ["ages_served"]
       [ [("ages_served", Str "0-2, 3-5")];
         [("ages_served", Str "3-5")];
         [("ages_served", Str Text.empty)] ].

(** The records of several frames, frame after frame. *)
Definition all_rows (dfs : list DataFrame) : list Row :=
  flat_map rows dfs.

(** The columns of a frame other than the helper column of the window. *)
Definition without_row_num (cols : list string) : list string :=
  filter (fun c => negb (mem c ["row_num"])) cols.

(** The distinct identity keys of a list of records. *)
Definition identity_keys (rs : list Row) : list (list Value) :=
  nodup (list_eq_dec Value_eq_dec) (map identity_key rs).

(** The address main writes to: the variable DB_URL, or the default. *)
Definition db_url_of (getenv : string -> option string) : string :=
  match getenv "DB_URL" with
  | Some url => url
  | None => "jdbc:postgresql://localhost:5433/ETL"
  end.

(** A sink that accepts every batch, and one that refuses every batch. *)
Definition accepting_sink (df : DataFrame) (url table mode : string)
  : Result unit := Ok tt.

Definition refusing_sink (df : DataFrame) (url table mode : string)
  : Result unit := Raise IOError.

(** Every record of [df'] has under [k] the cell of the record of [df] at
    the same place. *)
Definition same_cell (k : string) (df df' : DataFrame) : Prop :=
  Forall2 (fun r r' => row_get k r' = row_get k r) (rows df) (rows df').

(** [df'] has every target column that [df] has. *)
Definition keeps_targets (df df' : DataFrame) : Prop :=
  forall c, In c target_columns ->
            mem c (columns df) = true -> mem c (columns df') = true.

Definition digits_or_null (v : Value) : Prop :=
  match v with
  | Null => True
  | Str s => Text.all_digits s = true
  | _ => False
  end.

Definition date_or_null (v : Value) : Prop :=
  match v with Null | Date _ => True | _ => False end.

Definition int_or_null (v : Value) : Prop :=
  match v with Null | Int _ => True | _ => False end.

Definition is_string (v : Value) : Prop :=
  match v with Str _ => True | _ => False end.

(** A record as process_csv_file leaves it. *)
Definition processed (source_name : string) (now : Z) (file_path : string)
    (r : Row) : Prop :=
  stamped source_name now file_path r
  /\ digits_or_null (row_get "phone" r)
  /\ date_or_null (row_get "license_issued" r)
  /\ date_or_null (row_get "certificate_expiration_date" r)
  /\ int_or_null (row_get "capacity" r)
  /\ int_or_null (row_get "license_number" r)
  /\ is_string (row_get "last_name" r).

(** The names the steps of process_csv_file after transform_df drop. *)
Definition dropped_names : list string :=
  ["name_parts"; "Ages Accepted 1"; "AA2"; "AA3"; "AA4";
   "Infant"; "Toddler"; "Preschool"; "School"; "ages_array"].

(** The second source of the sample run after process_csv_file. *)
Definition processed2 : DataFrame :=
  Eval vm_compute in
    match process_csv_file Sample.column_mappings Sample.read_csv
            Sample.parse_date 0
            "csv_files/Technical Exercise Data - source2.csv" "source2" with
    | Ok (Some df) => df
    | _ => mkDF [] []
    end.


(** * Properties *)

(** ** Rows *)

Section RowFacts.

Variables (m : string) (v : Value).

Lemma row_get_replaced (n : string) (r : Row) :
  row_get n (map (fun cell => if has_name m cell then (m, v) else cell) r)
  = if String.eqb n m
    then (if existsb (has_name m) r then v else Null)
    else row_get n r.
Proof.
  unfold row_get, has_name.
  induction r as [| [k x] r IH]; simpl.
  - destruct (String.eqb n m); reflexivity.
  - destruct (String.eqb_spec k m) as [->|Hkm]; simpl.
    + destruct (String.eqb_spec m n) as [->|Hmn]; simpl.
      * rewrite String.eqb_refl. reflexivity.
      * rewrite IH. destruct (String.eqb_spec n m); congruence.
    + destruct (String.eqb_spec k n) as [->|Hkn]; simpl.
      * destruct (String.eqb_spec n m); congruence.
      * exact IH.
Qed.

Lemma row_get_appended (n : string) (r : Row) :
  existsb (has_name m) r = false ->
  row_get n (r ++ [(m, v)]) = if String.eqb n m then v else row_get n r.
Proof.
  unfold row_get, has_name.
  induction r as [| [k x] r IH]; simpl; intros H.
  - destruct (String.eqb_spec m n) as [->|Hmn].
    + rewrite String.eqb_refl. reflexivity.
    + destruct (String.eqb_spec n m); congruence.
  - apply orb_false_elim in H as [Hk Hr].
    destruct (String.eqb_spec k n) as [->|Hkn].
    + rewrite Hk. reflexivity.
    + apply IH, Hr.
Qed.

Lemma row_get_row_with (n : string) (r : Row) :
  row_get n (row_with m v r) = if String.eqb n m then v else row_get n r.
Proof.
  unfold row_with.
  destruct (existsb (has_name m) r) eqn:E.
  - rewrite row_get_replaced, E. reflexivity.
  - apply row_get_appended, E.
Qed.

Lemma other_cells_row_with (r : Row) :
  other_cells m (row_with m v r) = other_cells m r.
Proof.
  unfold other_cells, row_with.
  destruct (existsb (has_name m) r).
  - unfold has_name.
    induction r as [| [k x] r IH]; simpl; [reflexivity|].
    destruct (String.eqb_spec k m) as [->|Hkm]; simpl.
    + rewrite String.eqb_refl. simpl. exact IH.
    + destruct (String.eqb_spec k m); [contradiction|]. simpl.
      now rewrite IH.
  - rewrite filter_app. unfold has_name. simpl.
    rewrite String.eqb_refl. simpl. apply app_nil_r.
Qed.

End RowFacts.

Lemma row_get_other_cells (m n : string) (r : Row) :
  row_get n (other_cells m r) = if String.eqb n m then Null else row_get n r.
Proof.
  unfold row_get, other_cells, has_name.
  induction r as [| [k x] r IH]; simpl.
  - destruct (String.eqb n m); reflexivity.
  - destruct (String.eqb_spec k m) as [->|Hkm]; simpl.
    + rewrite IH. destruct (String.eqb_spec m n) as [->|Hmn].
      * rewrite String.eqb_refl. reflexivity.
      * destruct (String.eqb_spec n m); congruence.
    + destruct (String.eqb_spec k n) as [->|Hkn].
      * destruct (String.eqb_spec n m); congruence.
      * exact IH.
Qed.

Lemma row_get_dropped (names : list string) (n : string) (r : Row) :
  row_get n (filter (fun cell => negb (mem (fst cell) names)) r)
  = if mem n names then Null else row_get n r.
Proof.
  unfold row_get, has_name.
  induction r as [| [k x] r IH]; simpl.
  - destruct (mem n names); reflexivity.
  - destruct (mem k names) eqn:Hk; simpl.
    + rewrite IH. destruct (String.eqb_spec k n) as [->|Hkn].
      * rewrite Hk. reflexivity.
      * reflexivity.
    + destruct (String.eqb_spec k n) as [->|Hkn].
      * rewrite Hk. reflexivity.
      * exact IH.
Qed.

Lemma row_with_idem (m : string) (v w : Value) (r : Row) :
  row_with m v (row_with m w r) = row_with m v r.
Proof.
  unfold row_with.
  destruct (existsb (has_name m) r) eqn:E.
  - assert (E' : existsb (has_name m)
                   (map (fun cell => if has_name m cell then (m, w) else cell) r)
                 = true).
    { clear -E. unfold has_name in *.
      induction r as [| [k x] r IH]; simpl in *; [discriminate|].
      destruct (String.eqb_spec k m) as [->|Hkm]; simpl.
      - now rewrite String.eqb_refl.
      - destruct (String.eqb_spec k m); [contradiction|]. simpl. auto. }
    rewrite E', map_map. apply map_ext. intros [k x]. unfold has_name. simpl.
    destruct (String.eqb_spec k m) as [->|Hkm]; simpl.
    + now rewrite String.eqb_refl.
    + destruct (String.eqb_spec k m); [contradiction|reflexivity].
  - assert (E' : existsb (has_name m) (r ++ [(m, w)]) = true).
    { rewrite existsb_app. simpl. unfold has_name at 2. simpl.
      rewrite String.eqb_refl. now rewrite orb_true_r. }
    rewrite E', map_app. simpl. unfold has_name at 2. simpl.
    rewrite String.eqb_refl. f_equal.
    clear E'. induction r as [| [k x] r IH]; simpl in *; [reflexivity|].
    apply orb_false_elim in E as [Hk Hr]. rewrite Hk. f_equal. auto.
Qed.

(** ** Frames *)

Lemma bind_Ok {A B : Type} (m : Result A) (k : A -> Result B) (b : B) :
  (x <- m ;; k x) = Ok b -> exists a, m = Ok a /\ k a = Ok b.
Proof. destruct m as [a|e]; simpl; [eauto|discriminate]. Qed.

Lemma mem_In (n : string) (l : list string) : mem n l = true <-> In n l.
Proof.
  unfold mem. rewrite existsb_exists. split.
  - intros [x [Hx E]]. apply String.eqb_eq in E. now subst.
  - intros H. exists n. split; [assumption|apply String.eqb_refl].
Qed.

Lemma resolves_mem (cols : list string) (n : string) :
  resolves cols n = true -> mem n cols = true.
Proof.
  unfold resolves, occurrences. intros H. apply Nat.eqb_eq in H.
  apply mem_In.
  destruct (filter (String.eqb n) cols) as [|x l] eqn:E; [discriminate|].
  assert (Hx : In x (filter (String.eqb n) cols)) by (rewrite E; now left).
  apply filter_In in Hx as [Hin Heq]. apply String.eqb_eq in Heq. now subst.
Qed.

Lemma cols_with_mem (n : string) (cols : list string) :
  mem n cols = true -> cols_with n cols = cols.
Proof. unfold cols_with. now intros ->. Qed.

Lemma withColumn_Ok (df df' : DataFrame) (n : string) (c : Column) :
  withColumn df n c = Ok df' ->
  analyze (columns df) (refs c) = Ok tt
  /\ df' = mkDF (cols_with n (columns df))
                (map (fun r => row_with n (eval c r) r) (rows df)).
Proof.
  unfold withColumn. intros H.
  destruct (analyze (columns df) (refs c)) as [[]|e]; simpl in H;
    [|discriminate].
  split; [reflexivity|congruence].
Qed.

Lemma analyze_cons (cols : list string) (n : string) (ns : list string) :
  analyze cols (n :: ns) = Ok tt ->
  resolves cols n = true /\ analyze cols ns = Ok tt.
Proof.
  unfold analyze. simpl.
  destruct (resolves cols n); simpl; [|discriminate].
  destruct (forallb (resolves cols) ns); [auto|discriminate].
Qed.

Lemma Forall2_map_r {A B : Type} (P : A -> B -> Prop) (f : A -> B)
    (l : list A) :
  (forall a, In a l -> P a (f a)) -> Forall2 P l (map f l).
Proof.
  induction l as [|a l IH]; simpl; intros H; constructor; auto.
Qed.

(** ** Text *)

Lemma replace_non_digits (s : string) :
  Text.replace_all Text.NonDigit Text.empty s = digits_only s.
Proof.
  unfold digits_only.
  induction s as [|c s IH]; simpl; [reflexivity|].
  destruct (Text.is_digit c); simpl; now rewrite IH.
Qed.

Lemma filter_idem {A : Type} (f : A -> bool) (l : list A) :
  filter f (filter f l) = filter f l.
Proof.
  induction l as [|a l IH]; simpl; [reflexivity|].
  destruct (f a) eqn:E; simpl; [rewrite E|]; now rewrite IH.
Qed.

Lemma digits_only_idem (s : string) :
  digits_only (digits_only s) = digits_only s.
Proof.
  unfold digits_only.
  now rewrite list_ascii_of_string_of_list_ascii, filter_idem.
Qed.

Lemma digits_only_all_digits (s : string) :
  Text.all_digits (digits_only s) = true.
Proof.
  unfold digits_only.
  induction s as [|c s IH]; simpl; [reflexivity|].
  destruct (Text.is_digit c) eqn:E; simpl; [rewrite E|]; exact IH.
Qed.

(** ** clean_phone *)

Lemma clean_phone_Ok (df df' : DataFrame) (c : string) :
  clean_phone df c = Ok df' ->
  mem c (columns df) = true
  /\ analyze (columns df) [c] = Ok tt
  /\ df' = mkDF (columns df)
                (map (fun r =>
                        row_with c
                          (on_string (fun s => Str (digits_only s)) (row_get c r))
                          r)
                     (rows df)).
Proof.
  unfold clean_phone. intros H. apply withColumn_Ok in H as [Ha ->].
  simpl in Ha. pose proof (analyze_cons _ _ _ Ha) as [Hr _].
  apply resolves_mem in Hr. rewrite (cols_with_mem _ _ Hr).
  repeat split; try assumption.
  f_equal. apply map_ext. intros r. simpl. f_equal.
  destruct (row_get c r); simpl; try reflexivity.
  now rewrite replace_non_digits.
Qed.

(** C8. phoneNormalize is idempotent (a second application returns the
    frame unchanged), it keeps exactly the digits of a string cell, and a
    null cell stays null. *)
Theorem clean_phone_idempotent (df df' : DataFrame) (c : string) :
  clean_phone df c = Ok df' ->
  clean_phone df' c = Ok df'
  /\ Forall2 (fun r r' => phone_normalized (row_get c r) (row_get c r'))
             (rows df) (rows df')
  /\ Forall (fun r' => match row_get c r' with
                       | Str s => Text.all_digits s = true
                       | _ => True
                       end) (rows df').
Proof.
  intros H. apply clean_phone_Ok in H as (Hm & Ha & ->).
  split; [|split].
  - unfold clean_phone, withColumn. simpl. rewrite Ha. simpl.
    rewrite (cols_with_mem _ _ Hm). f_equal. f_equal.
    rewrite map_map. apply map_ext. intros r.
    rewrite row_get_row_with, String.eqb_refl, row_with_idem. f_equal.
    destruct (row_get c r); simpl; try reflexivity.
    now rewrite replace_non_digits, digits_only_idem.
  - simpl. apply Forall2_map_r. intros r _.
    rewrite row_get_row_with, String.eqb_refl.
    unfold phone_normalized. destruct (row_get c r); simpl; auto.
  - simpl. apply Forall_forall. intros r' Hin.
    apply in_map_iff in Hin as [r [<- _]].
    rewrite row_get_row_with, String.eqb_refl.
    destruct (row_get c r); simpl; auto using digits_only_all_digits.
Qed.

Lemma clean_phone_idempotent_witness :
  clean_phone SampleOut.phone_frame_clean "phone"
  = Ok SampleOut.phone_frame_clean
  /\ Forall2 (fun r r' => phone_normalized (row_get "phone" r)
                                           (row_get "phone" r'))
             (rows Sample.phone_frame) (rows SampleOut.phone_frame_clean)
  /\ Forall (fun r' => match row_get "phone" r' with
                       | Str s => Text.all_digits s = true
                       | _ => True
                       end) (rows SampleOut.phone_frame_clean).
Proof.
  exact (clean_phone_idempotent Sample.phone_frame
           SampleOut.phone_frame_clean "phone" eq_refl).
Defined.

(** C10. clean_phone on phone changes the phone cell only: the columns are
    the same, and in every row the other cells, phone2 among them, are
    what they were. *)
Theorem clean_phone_only_phone (df df' : DataFrame) :
  clean_phone df "phone" = Ok df' ->
  columns df' = columns df
  /\ Forall2 (fun r r' =>
                other_cells "phone" r' = other_cells "phone" r
                /\ row_get "phone2" r' = row_get "phone2" r
                /\ forall name, name <> "phone" ->
                                row_get name r' = row_get name r)
             (rows df) (rows df').
Proof.
  intros H. apply clean_phone_Ok in H as (Hm & Ha & ->).
  split; [reflexivity|].
  simpl. apply Forall2_map_r. intros r _.
  split; [apply other_cells_row_with|].
  split.
  - now rewrite row_get_row_with.
  - intros name Hn. rewrite row_get_row_with.
    destruct (String.eqb_spec name "phone"); [contradiction|reflexivity].
Qed.

Lemma clean_phone_only_phone_witness :
  columns SampleOut.phone_frame_clean = columns Sample.phone_frame
  /\ Forall2 (fun r r' =>
                other_cells "phone" r' = other_cells "phone" r
                /\ row_get "phone2" r' = row_get "phone2" r
                /\ forall name, name <> "phone" ->
                                row_get name r' = row_get name r)
             (rows Sample.phone_frame) (rows SampleOut.phone_frame_clean).
Proof.
  exact (clean_phone_only_phone Sample.phone_frame
           SampleOut.phone_frame_clean eq_refl).
Defined.

(** ** Name handling *)

Ltac frame_steps H :=
  repeat (let a := fresh "df" in
          let Ha := fresh "Hstep" in
          apply bind_Ok in H as (a & Ha & H);
          apply withColumn_Ok in Ha as [_ ->]).

Ltac cells :=
  repeat (rewrite ?row_get_dropped, ?row_get_row_with;
          cbn [mem existsb String.eqb Ascii.eqb Bool.eqb orb]).

Lemma name_tokens_first (s : string) :
  exists t ts, name_tokens s = t :: ts.
Proof.
  unfold name_tokens. generalize (Text.trim s). intros u.
  induction u as [|c u IH]; simpl; eauto.
  destruct (Ascii.eqb c Text.space); eauto.
  destruct IH as (t & ts & ->). eauto.
Qed.

(** C6 (as the code has it). The name handling trims the licensee name and
    cuts it at every space: the first token is the first name, the second,
    when there is one, the last name, else the last name is the empty
    string; later tokens are not used.  The handling is not skipped for a
    null licensee name: there the first name becomes null and the last
    name the empty string. *)
Theorem license_name_handling_rows (df df' : DataFrame) :
  license_name_handling df = Ok df' ->
  Forall2 (fun r r' => name_split (row_get "licensee_name" r) r')
          (rows df) (rows df').
Proof.
  unfold license_name_handling. intros H. frame_steps H.
  injection H as <-. unfold drop. cbn [rows]. rewrite !map_map.
  apply Forall2_map_r. intros r _.
  unfold name_split.
  cbn [eval trim col split getItem isNotNull when_otherwise lit refs].
  cells.
  destruct (row_get "licensee_name" r) as [| | | | |s|]; cbn [on_string];
    try (repeat split; reflexivity).
  fold (name_tokens s).
  destruct (name_tokens_first s) as (t & ts & ->).
  destruct ts as [|t2 ts]; repeat split; reflexivity.
Qed.

Lemma license_name_handling_rows_witness :
  Forall2 (fun r r' => name_split (row_get "licensee_name" r) r')
          (rows Sample.names_frame) (rows SampleOut.names_frame_split).
Proof.
  exact (license_name_handling_rows Sample.names_frame
           SampleOut.names_frame_split eq_refl).
Defined.

(** A record with a null licensee name does not keep its names: the hook
    sets its first name to null and its last name to the empty string.
    The same happens to a source that has no licensee name at all: the
    padding of transform_df creates the column, so the test on the
    column's presence always succeeds. *)
Lemma name_split_null_overwrites :
  license_name_handling Sample.names_frame = Ok SampleOut.names_frame_split
  /\ map (fun r => (row_get "licensee_name" r, row_get "first_name" r,
                    row_get "last_name" r))
         (firstn 1 (rows Sample.names_frame))
     = [(Null, Str "Ann", Str "Lee")]
  /\ map (fun r => (row_get "licensee_name" r, row_get "first_name" r,
                    row_get "last_name" r))
         (firstn 1 (rows SampleOut.names_frame_split))
     = [(Null, Null, Str Text.empty)]
  /\ (exists df,
        process_csv_file Sample.column_mappings Sample.read_csv
          Sample.parse_date 0
          "csv_files/Technical Exercise Data - source1.csv" "source1"
        = Ok (Some df)
        /\ map (fun r => (row_get "first_name" r, row_get "last_name" r))
               (rows df)
           = [(Null, Str Text.empty)]).
Proof.
  repeat split; try reflexivity.
  eexists. split; [vm_compute; reflexivity|reflexivity].
Qed.

(** ** Numeric casts *)













(** ** Age flags *)

Lemma mem_app (n : string) (l1 l2 : list string) :
  mem n (l1 ++ l2) = mem n l1 || mem n l2.
Proof. unfold mem. apply existsb_app. Qed.

Lemma mem_dropped (names l : list string) (n : string) :
  mem n names = true ->
  mem n (filter (fun c => negb (mem c names)) l) = false.
Proof.
  intros H. destruct (mem n (filter _ l)) eqn:E; [|reflexivity].
  apply mem_In, filter_In in E as [_ E]. now rewrite H in E.
Qed.

Lemma has_name_dropped (names : list string) (n : string) (r : Row) :
  mem n names = true ->
  existsb (has_name n) (filter (fun cell => negb (mem (fst cell) names)) r)
  = false.
Proof.
  intros H. induction r as [|[k x] r IH]; simpl; [reflexivity|].
  destruct (mem k names) eqn:Hk; simpl; [exact IH|].
  rewrite IH. unfold has_name. simpl.
  destruct (String.eqb_spec k n) as [->|]; [congruence|reflexivity].
Qed.

Lemma flag_exprs_labels (r : Row) (cs : list string) :
  somes (map (fun c => match eval c r with Str s => Some s | _ => None end)
           (map (fun age_col => when (eq (col age_col) (lit (Str "Y")))
                                     (lit (Str age_col))) cs))
  = filter (fun c => value_eqb (row_get c r) (Str "Y")) cs.
Proof.
  induction cs as [|c cs IH]; [reflexivity|].
  cbn [map filter]. cbn [eval when when_otherwise eq col lit].
  destruct (row_get c r) eqn:E; cbn [somes]; try exact IH;
    match goal with
    | |- context [value_eqb ?a ?b] => destruct (value_eqb a b)
    end; cbn [somes]; now rewrite IH.
Qed.

(** C9. The flag-style consolidation writes into ages_served, for every
    row, the names of the listed columns whose cell is Y, in the order of
    the list and joined by a comma and a space, and drops the listed
    columns; flags Infant=Y, Toddler=N give Infant. *)
Theorem combine_age_columns_source3_labels :
  (forall df df' age_columns,
      mem "ages_served" age_columns = false ->
      combine_age_columns_source3 df age_columns = Ok df' ->
      (forall c, In c age_columns -> mem c (columns df') = false)
      /\ Forall2 (fun r r' =>
                    row_get "ages_served" r'
                    = Str (Text.join ", " (flag_labels (columns df) age_columns r))
                    /\ forall c, In c age_columns ->
                                 existsb (has_name c) r' = false)
                 (rows df) (rows df'))
  /\ combine_age_columns_source3 Sample.flags_frame
       ["Infant"; "Toddler"; "Preschool"; "School"]
     = Ok SampleOut.flags_frame_ages.
Proof.
  split; [|reflexivity].
  intros df df' age_columns Hs H. unfold combine_age_columns_source3 in H.
  frame_steps H. injection H as <-. unfold drop. cbn [rows columns].
  split.
  - intros c Hc. apply mem_dropped. rewrite mem_app.
    apply mem_In in Hc. now rewrite Hc.
  - rewrite !map_map. apply Forall2_map_r. intros r _. split.
    + rewrite row_get_dropped, mem_app, Hs. cbn [mem existsb String.eqb Ascii.eqb Bool.eqb orb].
      rewrite row_get_row_with, String.eqb_refl.
      cbn [eval concat_ws col flat_map]. rewrite row_get_row_with, String.eqb_refl.
      cbn [eval array]. cbn [ws_parts]. rewrite app_nil_r.
      unfold flag_labels. now rewrite flag_exprs_labels.
    + intros c Hc. apply has_name_dropped. rewrite mem_app.
      apply mem_In in Hc. now rewrite Hc.
Qed.

Lemma combine_age_columns_source3_labels_witness :
  (forall c, In c ["Infant"; "Toddler"; "Preschool"; "School"] ->
             mem c (columns SampleOut.flags_frame_ages) = false)
  /\ Forall2 (fun r r' =>
                row_get "ages_served" r'
                = Str (Text.join ", "
                         (flag_labels (columns Sample.flags_frame)
                            ["Infant"; "Toddler"; "Preschool"; "School"] r))
                /\ forall c, In c ["Infant"; "Toddler"; "Preschool"; "School"] ->
                             existsb (has_name c) r' = false)
             (rows Sample.flags_frame) (rows SampleOut.flags_frame_ages).
Proof.
  exact (proj1 combine_age_columns_source3_labels Sample.flags_frame
           SampleOut.flags_frame_ages
           ["Infant"; "Toddler"; "Preschool"; "School"] eq_refl eq_refl).
Defined.

(** ** Orders and sorts *)

Lemma text_leb_iff (a b : string) :
  Text.leb a b = true <-> a = b \/ String_as_OT.lt a b.
Proof.
  unfold Text.leb.
  destruct (String_as_OT.compare_spec a b) as [E|L|G]; split; auto;
    try discriminate.
  intros [E|L]; [subst|].
  - exfalso. exact (irreflexivity G).
  - exfalso. exact (irreflexivity (transitivity L G)).
Qed.

Lemma text_leb_total (a b : string) :
  Text.leb a b = true \/ Text.leb b a = true.
Proof.
  rewrite !text_leb_iff.
  destruct (String_as_OT.compare_spec a b); auto.
Qed.

Lemma text_leb_trans (a b c : string) :
  Text.leb a b = true -> Text.leb b c = true -> Text.leb a c = true.
Proof.
  rewrite !text_leb_iff. intros [->|H1] [->|H2]; auto.
  right. exact (transitivity H1 H2).
Qed.

Lemma value_leb_total (a b : Value) :
  value_leb a b = true \/ value_leb b a = true.
Proof.
  destruct a, b; cbn [value_leb type_tag Nat.leb]; auto;
    try (rewrite !Z.leb_le; lia).
  - destruct b, b0; auto.
  - apply text_leb_total.
Qed.

Lemma value_leb_trans (a b c : Value) :
  value_leb a b = true -> value_leb b c = true -> value_leb a c = true.
Proof.
  destruct a, b, c; cbn [value_leb type_tag Nat.leb]; auto;
    try discriminate;
    try (rewrite !Z.leb_le; lia).
  - destruct b, b0, b1; auto.
  - apply text_leb_trans.
Qed.

Lemma before_total (name : string) (a b : Row) :
  before name a b = true \/ before name b a = true.
Proof. unfold before. destruct (value_leb_total (row_get name a) (row_get name b)); auto. Qed.

Lemma before_trans (name : string) (a b c : Row) :
  before name a b = true -> before name b c = true -> before name a c = true.
Proof. unfold before. eauto using value_leb_trans. Qed.

Section InsertionSort.

Variable leb : Row -> Row -> bool.
Hypothesis leb_total : forall a b, leb a b = true \/ leb b a = true.
Hypothesis leb_trans :
  forall a b c, leb a b = true -> leb b c = true -> leb a c = true.

Lemma insert_row_perm (x : Row) (l : list Row) :
  Permutation (x :: l) (insert_row leb x l).
Proof.
  induction l as [|y l IH]; simpl; [apply Permutation_refl|].
  destruct (leb x y); [apply Permutation_refl|].
  eapply perm_trans; [apply perm_swap|]. now apply perm_skip.
Qed.

Lemma insert_row_sorted (x : Row) (l : list Row) :
  StronglySorted (fun a b => leb a b = true) l ->
  StronglySorted (fun a b => leb a b = true) (insert_row leb x l).
Proof.
  induction l as [|y l IH]; simpl; intros Hs.
  - constructor; constructor.
  - apply StronglySorted_inv in Hs as [Hl Hy].
    destruct (leb x y) eqn:E.
    + constructor; [now constructor|].
      constructor; [assumption|].
      eapply Forall_impl; [|exact Hy]. intros z Hz. simpl in Hz. eauto.
    + constructor; [auto|].
      eapply Permutation_Forall; [apply insert_row_perm|].
      constructor; [|assumption].
      destruct (leb_total x y); congruence.
Qed.

Lemma stable_sort_perm (l : list Row) : Permutation l (stable_sort leb l).
Proof.
  induction l as [|x l IH]; simpl; [constructor|].
  eapply perm_trans; [|apply insert_row_perm]. now apply perm_skip.
Qed.

Lemma stable_sort_sorted (l : list Row) :
  StronglySorted (fun a b => leb a b = true) (stable_sort leb l).
Proof.
  induction l as [|x l IH]; simpl; [constructor|].
  now apply insert_row_sorted.
Qed.

End InsertionSort.

Lemma stable_sort_sorts : sorts stable_sort.
Proof.
  intros leb Ht Htr l. split.
  - apply stable_sort_perm.
  - now apply stable_sort_sorted.
Qed.


(** ** Deduplication *)

Lemma value_eqb_eq (a b : Value) : value_eqb a b = true <-> a = b.
Proof.
  unfold value_eqb. destruct (Value_eq_dec a b); split; auto; discriminate.
Qed.

Lemma key_eqb_eq (a b : list Value) : key_eqb a b = true <-> a = b.
Proof.
  unfold key_eqb. destruct (list_eq_dec Value_eq_dec a b); split; auto;
    discriminate.
Qed.

Lemma first_row_test_numbered (name : string) (i : nat) (r : Row) :
  first_row_test name (row_with name (Int (Z.of_nat i)) r) = Nat.eqb i 1.
Proof.
  unfold first_row_test. cbn [eval eq col lit].
  rewrite row_get_row_with, String.eqb_refl.
  destruct (Nat.eqb_spec i 1) as [->|Hn].
  - reflexivity.
  - unfold value_eqb at 2.
    destruct (Value_eq_dec (Int (Z.of_nat i)) (Int 1)) as [E|E].
    + injection E as E. lia.
    + reflexivity.
Qed.

Lemma numbered_later (name : string) (p : list Row) (k : nat) :
  2 <= k ->
  filter (first_row_test name)
    (map (fun ir => row_with name (Int (Z.of_nat (fst ir))) (snd ir))
       (combine (seq k (length p)) p)) = [].
Proof.
  revert k. induction p as [|x p IH]; intros k Hk; [reflexivity|].
  cbn [length seq combine map filter fst snd].
  rewrite first_row_test_numbered.
  destruct (Nat.eqb_spec k 1); [lia|]. apply IH. lia.
Qed.

Lemma number_rows_first (name : string) (p : list Row) :
  filter (first_row_test name) (number_rows name p)
  = map (row_with name (Int 1)) (firstn 1 p).
Proof.
  unfold number_rows. destruct p as [|x p]; [reflexivity|].
  cbn [length seq combine map filter fst snd firstn].
  rewrite first_row_test_numbered. cbn [Nat.eqb].
  now rewrite numbered_later.
Qed.

Lemma flat_map_map {A B C : Type} (f : A -> B) (g : B -> list C) (l : list A) :
  flat_map g (map f l) = flat_map (fun a => g (f a)) l.
Proof. induction l as [|a l IH]; simpl; [reflexivity|]. now rewrite IH. Qed.

Lemma filter_flat_map {A B : Type} (f : B -> bool) (g : A -> list B) (l : list A) :
  filter f (flat_map g l) = flat_map (fun a => filter f (g a)) l.
Proof.
  induction l as [|a l IH]; simpl; [reflexivity|].
  now rewrite filter_app, IH.
Qed.

Lemma map_flat_map {A B C : Type} (f : B -> C) (g : A -> list B) (l : list A) :
  map f (flat_map g l) = flat_map (fun a => map f (g a)) l.
Proof.
  induction l as [|a l IH]; simpl; [reflexivity|].
  now rewrite map_app, IH.
Qed.

Lemma deduplicate_rows (sort : Sorter) (df df' : DataFrame) :
  deduplicate_dataframe sort (Some df) = Ok df' ->
  rows df' = survivors sort (rows df).
Proof.
  unfold deduplicate_dataframe. cbn [the_frame bind].
  intros H. apply bind_Ok in H as (df1 & H1 & H).
  apply bind_Ok in H as (df2 & H2 & H). injection H as <-.
  unfold withRowNumber in H1. apply bind_Ok in H1 as (u & _ & H1).
  injection H1 as <-.
  unfold filter_rows in H2. apply bind_Ok in H2 as (u' & _ & H2).
  injection H2 as <-.
  unfold drop, survivors. cbn [rows columns partition_cols order_desc].
  rewrite filter_flat_map, map_flat_map.
  apply flat_map_ext. intros p.
  match goal with
  | |- map _ (filter ?g (number_rows ?n _)) = _ =>
      change g with (first_row_test n)
  end.
  rewrite number_rows_first, map_map. apply map_ext. intros r.
  rewrite <- (other_cells_row_with "row_num" (Int 1) r).
  unfold other_cells. apply filter_ext. intros [k x]. unfold has_name, mem.
  simpl. now rewrite orb_false_r, String.eqb_sym.
Qed.

Lemma value_leb_not_later (a b : Value) :
  value_leb a b = true -> not_later a b.
Proof.
  destruct a, b; cbn [value_leb type_tag not_later Nat.leb]; auto;
    try discriminate.
  apply Z.leb_le.
Qed.

Lemma identity_key_other_cells (r : Row) :
  identity_key (other_cells "row_num" r) = identity_key r.
Proof.
  unfold identity_key, key_of. cbn [map].
  now rewrite !row_get_other_cells.
Qed.

Lemma in_group (rs : list Row) (r o : Row) :
  In o (group rs r) <-> In o rs /\ identity_key o = identity_key r.
Proof. unfold group. rewrite filter_In, key_eqb_eq. tauto. Qed.

Lemma filter_none {A : Type} (f : A -> bool) (l : list A) :
  (forall o, In o l -> f o = false) -> filter f l = [].
Proof.
  induction l as [|a l IH]; intros H; [reflexivity|].
  simpl. rewrite (H a) by now left. apply IH. intros o Ho. apply H. now right.
Qed.

Lemma filter_all {A : Type} (f : A -> bool) (l : list A) :
  (forall o, In o l -> f o = true) -> filter f l = l.
Proof.
  induction l as [|a l IH]; intros H; [reflexivity|].
  simpl. rewrite (H a) by now left. f_equal. apply IH. intros o Ho.
  apply H. now right.
Qed.

Lemma filter_flat_map_key {A : Type} (key : A -> list Value)
    (f : list Value -> list A) (ks : list (list Value)) (k0 : list Value) :
  NoDup ks -> In k0 ks ->
  (forall k o, In k ks -> In o (f k) -> key o = k) ->
  filter (fun o => key_eqb (key o) k0) (flat_map f ks) = f k0.
Proof.
  intros Hnd. induction Hnd as [|k ks Hk Hnd IH]; intros Hin Hkey;
    [contradiction|].
  cbn [flat_map]. rewrite filter_app.
  destruct (list_eq_dec Value_eq_dec k k0) as [->|Hne].
  - rewrite (filter_all _ (f k0)), (filter_none _ (flat_map f ks)).
    + apply app_nil_r.
    + intros o Ho. apply in_flat_map in Ho as (k' & Hk' & Ho).
      destruct (key_eqb (key o) k0) eqn:E; [|reflexivity].
      apply key_eqb_eq in E. rewrite (Hkey k' o) in E by (simpl; auto).
      subst. contradiction.
    + intros o Ho. apply key_eqb_eq. apply Hkey; simpl; auto.
  - destruct Hin as [Hin|Hin]; [contradiction|].
    rewrite (filter_none _ (f k)), IH.
    + reflexivity.
    + assumption.
    + intros k' o Hk' Ho. apply Hkey; simpl; auto.
    + intros o Ho. destruct (key_eqb (key o) k0) eqn:E; [|reflexivity].
      apply key_eqb_eq in E. rewrite (Hkey k o) in E by (simpl; auto).
      contradiction.
Qed.

Lemma sorted_head (sort : Sorter) (name : string) (p : list Row) (r : Row) :
  sorts sort -> In r p ->
  exists s t, sort (before name) p = s :: t
              /\ In s p
              /\ forall r2, In r2 p -> before name s r2 = true.
Proof.
  intros Hs Hr.
  destruct (Hs (before name) (before_total name) (before_trans name) p)
    as [Hp Hsorted].
  destruct (sort (before name) p) as [|s t] eqn:E.
  - apply Permutation_sym, Permutation_nil in Hp. subst. contradiction.
  - exists s, t. split; [reflexivity|]. split.
    + eapply Permutation_in; [apply Permutation_sym, Hp|]. now left.
    + intros r2 Hr2. apply (Permutation_in _ Hp) in Hr2.
      apply StronglySorted_inv in Hsorted as [_ Hall].
      destruct Hr2 as [<-|Hr2].
      * destruct (before_total name s s); assumption.
      * rewrite Forall_forall in Hall. now apply Hall.
Qed.

Lemma in_firstn {A : Type} (n : nat) (l : list A) (a : A) :
  In a (firstn n l) -> In a l.
Proof.
  rewrite <- (firstn_skipn n l) at 2. intros H. apply in_or_app. now left.
Qed.

Lemma survivors_group (sort : Sorter) (rs : list Row) (r : Row) :
  (forall p, Permutation p (sort (before "license_issued") p)) ->
  In r rs ->
  group (survivors sort rs) r
  = map (other_cells "row_num")
        (firstn 1 (sort (before "license_issued") (group rs r))).
Proof.
  intros Hperm Hr. unfold survivors, partitions. rewrite flat_map_map.
  unfold group at 1.
  rewrite (filter_flat_map_key identity_key
             (fun k => map (other_cells "row_num")
                         (firstn 1 (sort (before "license_issued")
                                      (filter (fun r0 => key_eqb (key_of ["phone"; "address1"] r0) k) rs))))).
  - reflexivity.
  - apply NoDup_nodup.
  - apply nodup_In. apply in_map_iff. exists r. auto.
  - intros k o _ Ho. apply in_map_iff in Ho as (h & <- & Hh).
    rewrite identity_key_other_cells.
    apply in_firstn in Hh.
    apply (Permutation_in _ (Permutation_sym (Hperm _))) in Hh.
    apply filter_In in Hh as [_ Hh]. now apply key_eqb_eq in Hh.
Qed.

Lemma dedup_group (sort : Sorter) (rs : list Row) (r : Row) :
  sorts sort -> In r rs ->
  exists s t,
    sort (before "license_issued") (group rs r) = s :: t
    /\ In s rs
    /\ identity_key s = identity_key r
    /\ (forall r2, In r2 rs -> identity_key r2 = identity_key r ->
                   value_leb (license_issued r2) (license_issued s) = true)
    /\ group (survivors sort rs) r = [other_cells "row_num" s].
Proof.
  intros Hs Hr.
  assert (Hg : In r (group rs r)) by (apply in_group; auto).
  destruct (sorted_head sort "license_issued" _ _ Hs Hg) as (s & t & E & Hin & Hmax).
  exists s, t. apply in_group in Hin as [Hin Hk].
  repeat split; try assumption.
  - intros r2 H2 Hk2. apply (Hmax r2). apply in_group. auto.
  - rewrite survivors_group, E; [reflexivity| |assumption].
    intros p. apply (Hs _ (before_total _) (before_trans _) p).
Qed.

(** C3. Of the records that share an identity key, deduplication keeps
    exactly one: a record of the group than which none has a later
    license_issued, a null date ranking below every date; when one record
    alone has the latest date, it is the one kept.  (The kept record is
    shown without the helper column row_num.) *)
Theorem dedup_latest_survives (sort : Sorter) (df df' : DataFrame) :
  sorts sort ->
  deduplicate_dataframe sort (Some df) = Ok df' ->
  forall r, In r (rows df) -> latest_survives (rows df) (rows df') r.
Proof.
  intros Hs H r Hr. rewrite (deduplicate_rows _ _ _ H).
  destruct (dedup_group sort (rows df) r Hs Hr)
    as (s & t & _ & Hin & Hk & Hmax & Hout).
  exists s. repeat split; try assumption.
  - intros r2 H2 Hk2. apply value_leb_not_later. auto.
  - intros r1 H1 Hk1 Hstrict.
    destruct (Row_eq_dec s r1) as [E|E]; [assumption|].
    specialize (Hstrict s Hin Hk E).
    rewrite (Hmax r1 H1 Hk1) in Hstrict. discriminate.
Qed.

Lemma dedup_latest_survives_witness :
  latest_survives (rows Sample.pair_frame)
    (rows (Sample.frame_of [Sample.newer])) Sample.older.
Proof.
  apply (dedup_latest_survives stable_sort Sample.pair_frame
           (Sample.frame_of [Sample.newer]) stable_sort_sorts eq_refl).
  simpl. auto.
Defined.




Section StableHead.

Variable leb : Row -> Row -> bool.
Hypothesis leb_total : forall a b, leb a b = true \/ leb b a = true.
Hypothesis leb_trans :
  forall a b c, leb a b = true -> leb b c = true -> leb a c = true.


End StableHead.




(** ** The run *)

Lemma cast_null (ty : DataType) : cast_value ty Null = Null.
Proof. destruct ty; reflexivity. Qed.

Lemma mem_snoc (c h : string) (l : list string) :
  mem c (l ++ [h]) = mem c l || String.eqb c h.
Proof. unfold mem. rewrite existsb_app. simpl. now rewrite orb_false_r. Qed.

Lemma pad_column_Ok (df : DataFrame) (c : string) :
  pad_column df c
  = Ok (if mem c (columns df) then df
        else mkDF (columns df ++ [c]) (map (row_with c Null) (rows df))).
Proof.
  unfold pad_column. destruct (mem c (columns df)) eqn:E; cbn [negb];
    [reflexivity|].
  unfold withColumn, analyze, cols_with. cbn [refs cast lit forallb bind eval].
  rewrite E. f_equal. f_equal. apply map_ext. intros r. now rewrite cast_null.
Qed.

Lemma pad_fold (l : list string) (df : DataFrame) :
  exists df',
    foldM pad_column l df = Ok df'
    /\ (forall c, mem c (columns df') = mem c (columns df) || mem c l)
    /\ (forall c, Forall (fun r => row_get c r = Null) (rows df) ->
                  Forall (fun r => row_get c r = Null) (rows df'))
    /\ (forall c, In c l -> mem c (columns df) = false ->
                  Forall (fun r => row_get c r = Null) (rows df')).
Proof.
  revert df. induction l as [|h l IH]; intros df.
  - exists df. cbn [foldM]. repeat split; auto.
    + intros c. cbn [mem existsb]. now rewrite orb_false_r.
    + intros c [].
  - cbn [foldM]. rewrite pad_column_Ok. cbn [bind].
    set (df1 := if mem h (columns df) then df
                else mkDF (columns df ++ [h])
                          (map (row_with h Null) (rows df))).
    destruct (IH df1) as (df' & E & Hcols & Hkeep & Hnew).
    assert (Hc1 : forall c, mem c (columns df1)
                            = mem c (columns df) || String.eqb c h).
    { intros c. unfold df1. destruct (mem h (columns df)) eqn:Eh.
      - destruct (String.eqb_spec c h) as [->|].
        + now rewrite Eh.
        + now rewrite orb_false_r.
      - cbn [columns]. apply mem_snoc. }
    assert (Hk1 : forall c, Forall (fun r => row_get c r = Null) (rows df) ->
                            Forall (fun r => row_get c r = Null) (rows df1)).
    { intros c Hc. unfold df1. destruct (mem h (columns df)); [assumption|].
      cbn [rows]. apply Forall_forall. intros r Hr.
      apply in_map_iff in Hr as (r0 & <- & Hr0).
      rewrite row_get_row_with. destruct (String.eqb c h); [reflexivity|].
      rewrite Forall_forall in Hc. auto. }
    exists df'. split; [assumption|]. split; [|split].
    + intros c. rewrite Hcols, Hc1. unfold mem at 4. cbn [existsb].
      now rewrite orb_assoc.
    + auto.
    + intros c Hin Hm. destruct (String.eqb_spec c h) as [->|Hne].
      * apply Hkeep. unfold df1. rewrite Hm. cbn [rows].
        apply Forall_forall. intros r Hr.
        apply in_map_iff in Hr as (r0 & <- & _).
        now rewrite row_get_row_with, String.eqb_refl.
      * destruct Hin as [->|Hin]; [contradiction|].
        apply Hnew; [assumption|]. rewrite Hc1, Hm.
        now destruct (String.eqb_spec c h).
Qed.

Lemma mem_cols_with (c n : string) (cols : list string) :
  mem c cols = true -> mem c (cols_with n cols) = true.
Proof.
  unfold cols_with. destruct (mem n cols); [auto|].
  intros H. now rewrite mem_snoc, H.
Qed.

Lemma transform_df_padded (current_timestamp : Z) (df : DataFrame)
    (mapping : list (string * string)) (source_name file_path : string)
    (df' : DataFrame) :
  transform_df current_timestamp df mapping source_name file_path = Ok df' ->
  padded (rename_columns df mapping) df'.
Proof.
  unfold transform_df, pad_missing_columns. intros H.
  destruct (pad_fold target_columns (rename_columns df mapping))
    as (df1 & E & Hcols & _ & Hnew).
  rewrite E in H. cbn [bind] in H.
  frame_steps H. apply withColumn_Ok in H as [_ ->].
  unfold padded. cbn [columns rows]. split.
  - intros c Hc. do 4 apply mem_cols_with.
    rewrite Hcols. apply mem_In in Hc. rewrite Hc. apply orb_true_r.
  - intros c Hc Hm Hs. rewrite !map_map.
    apply Forall_forall. intros r Hr. apply in_map_iff in Hr as (r0 & <- & Hr0).
    unfold stamped_columns, mem in Hs. cbn [existsb] in Hs.
    repeat (apply orb_false_elim in Hs as [?E Hs]).
    rewrite !row_get_row_with, E0, E1, E2, E3.
    specialize (Hnew c Hc Hm). rewrite Forall_forall in Hnew. auto.
Qed.

Section Run.

Variable column_mappings : list (string * list (string * string)).
Variable read_csv : string -> Result DataFrame.
Variable parse_date : string -> string -> option Z.
Variable current_timestamp : Z.
Variable sort : Sorter.
Variable getenv : string -> option string.
Variable jdbc_write : DataFrame -> string -> string -> string -> Result unit.

Lemma process_without_mapping (file_path source_name : string) :
  dict_get column_mappings source_name = None ->
  (exists e, process_csv_file column_mappings read_csv parse_date current_timestamp
       file_path source_name = Raise e)
  \/ process_csv_file column_mappings read_csv parse_date current_timestamp
       file_path source_name = Ok None.
Proof.
  intros H. unfold process_csv_file.
  destruct (read_csv file_path) as [df|e]; cbn [bind].
  - rewrite H. now right.
  - left. eauto.
Qed.

Lemma union_with_none (d1 d2 d3 : option DataFrame) :
  d1 = None \/ d2 = None \/ d3 = None ->
  exists e, union_all_dataframes [d1; d2; d3] = Raise e.
Proof.
  intros H. cbn [union_all_dataframes foldM].
  destruct d1 as [a|]; cbn [the_frame bind]; [|eauto].
  destruct d2 as [b|]; cbn [the_frame bind]; [|eauto].
  destruct (unionByName a b) as [u|e]; cbn [the_frame bind]; [|eauto].
  destruct d3 as [c|]; cbn [the_frame bind]; [|eauto].
  destruct H as [H|[H|H]]; discriminate.
Qed.

(** C2. A source without an entry in the mapping contributes nothing:
    process_csv_file returns None for it.  The run then does not go on
    with the other sources: None is put in the list of frames and the
    union calls a method on it, so main raises. *)
Theorem missing_mapping_aborts (source_name file_path : string) :
  In (source_name, file_path) get_csv_files ->
  dict_get column_mappings source_name = None ->
  ((exists e, process_csv_file column_mappings read_csv parse_date current_timestamp
       file_path source_name = Raise e)
   \/ process_csv_file column_mappings read_csv parse_date current_timestamp
       file_path source_name = Ok None)
  /\ exists e, main column_mappings read_csv parse_date current_timestamp sort
                 getenv jdbc_write = Raise e.
Proof.
  intros Hin Hnone. split; [now apply process_without_mapping|].
  unfold main, process_all_files, get_csv_files.
  cbn [mapM fst snd].
  destruct (process_csv_file column_mappings read_csv parse_date
              current_timestamp
              "csv_files/Technical Exercise Data - source1.csv"
              "source1") as [d1|e1] eqn:E1; cbn [bind]; [|eauto].
  destruct (process_csv_file column_mappings read_csv parse_date
              current_timestamp
              "csv_files/Technical Exercise Data - source2.csv"
              "source2") as [d2|e2] eqn:E2; cbn [bind]; [|eauto].
  destruct (process_csv_file column_mappings read_csv parse_date
              current_timestamp
              "csv_files/Technical Exercise Data - source3.csv"
              "source3") as [d3|e3] eqn:E3; cbn [bind]; [|eauto].
  assert (Hd : d1 = None \/ d2 = None \/ d3 = None).
  { destruct Hin as [Hin|[Hin|[Hin|[]]]]; injection Hin as <- <-.
    - destruct (process_without_mapping
                  "csv_files/Technical Exercise Data - source1.csv" _ Hnone)
        as [[e He]|He]; [congruence|]. left. congruence.
    - destruct (process_without_mapping
                  "csv_files/Technical Exercise Data - source2.csv" _ Hnone)
        as [[e He]|He]; [congruence|]. right. left. congruence.
    - destruct (process_without_mapping
                  "csv_files/Technical Exercise Data - source3.csv" _ Hnone)
        as [[e He]|He]; [congruence|]. right. right. congruence. }
  destruct (union_with_none d1 d2 d3 Hd) as [e ->]. cbn [bind]. eauto.
Qed.


End Run.

Lemma run_without_source2_raises :
  dict_get Sample.column_mappings_without_source2 "source2" = None
  /\ process_all_files Sample.column_mappings_without_source2 Sample.read_csv
       Sample.parse_date 0
       [("source2", "csv_files/Technical Exercise Data - source2.csv")]
     = Ok [None]
  /\ main Sample.column_mappings_without_source2 Sample.read_csv
       Sample.parse_date 0 stable_sort Sample.getenv Sample.jdbc_write
     = Raise AttributeError.
Proof. repeat split; vm_compute; reflexivity. Qed.

Lemma missing_mapping_aborts_witness :
  ((exists e,
       process_csv_file Sample.column_mappings_without_source2
         Sample.read_csv Sample.parse_date 0
         "csv_files/Technical Exercise Data - source2.csv" "source2"
       = Raise e)
   \/ process_csv_file Sample.column_mappings_without_source2
        Sample.read_csv Sample.parse_date 0
        "csv_files/Technical Exercise Data - source2.csv" "source2"
      = Ok None)
  /\ exists e,
      main Sample.column_mappings_without_source2 Sample.read_csv
        Sample.parse_date 0 stable_sort Sample.getenv Sample.jdbc_write
      = Raise e.
Proof.
  apply (missing_mapping_aborts Sample.column_mappings_without_source2
           Sample.read_csv Sample.parse_date 0 stable_sort Sample.getenv Sample.jdbc_write
           "source2" "csv_files/Technical Exercise Data - source2.csv").
  - simpl. auto.
  - reflexivity.
Defined.



(** ** The examples of the specification, evaluated *)

Example name_split_jane_doe :
  name_tokens "Jane Doe" = ["Jane"; "Doe"]
  /\ name_tokens "Madonna" = ["Madonna"].
Proof. split; reflexivity. Qed.

Example ages_of_buckets :
  combine_age_columns
    (mkDF ["AA2"; "AA3"]
          [ [("AA2", Str "0-2"); ("AA3", Str "3-5")];
            [("AA2", Null); ("AA3", Null)] ])
    ["Ages Accepted 1"; "AA2"; "AA3"; "AA4"]
  = Ok (mkDF ["ages_served"]
             [ [("ages_served", Str "0-2, 3-5")];
               [("ages_served", Str Text.empty)] ]).
Proof. reflexivity. Qed.

Example later_license_survives :
  deduplicate_dataframe stable_sort (Some Sample.pair_frame)
  = Ok (Sample.frame_of [Sample.newer])
  /\ deduplicate_dataframe reversing_sort (Some Sample.pair_frame)
     = Ok (Sample.frame_of [Sample.newer]).
Proof. split; reflexivity. Qed.

Example union_pads_missing_capacity :
  unionByName (mkDF ["phone"] [[("phone", Str "1")]])
              (mkDF ["phone"; "capacity"]
                    [[("phone", Str "2"); ("capacity", Int 40)]])
  = Ok (mkDF ["phone"; "capacity"]
             [ [("phone", Str "1"); ("capacity", Null)];
               [("phone", Str "2"); ("capacity", Int 40)] ]).
Proof. reflexivity. Qed.

Example sample_run_merges_the_shared_facility :
  map (fun r => (row_get "source" r, row_get "license_issued" r))
      (rows SampleOut.run_result)
  = [ (Str "source2", Date 18628); (Str "source3", Date 18262) ].
Proof. reflexivity. Qed.

(** ** Renaming, stamping, age buckets *)

Lemma rename_columns_shape (mapping : list (string * string)) (df : DataFrame) :
  length (columns (rename_columns df mapping)) = length (columns df)
  /\ map (map snd) (rows (rename_columns df mapping)) = map (map snd) (rows df).
Proof.
  unfold rename_columns. revert df.
  induction mapping as [|m mapping IH]; intros df; [split; reflexivity|].
  cbn [fold_left].
  destruct (mem (fst m) (columns df)).
  - destruct (IH (withColumnRenamed df (fst m) (snd m))) as [Hc Hr].
    rewrite Hc, Hr. unfold withColumnRenamed. cbn [columns rows].
    split; [apply length_map|].
    rewrite map_map. apply map_ext. intros r. rewrite map_map. reflexivity.
  - apply IH.
Qed.

Lemma rename_columns_rows_length (mapping : list (string * string))
    (df : DataFrame) :
  length (rows (rename_columns df mapping)) = length (rows df).
Proof.
  destruct (rename_columns_shape mapping df) as [_ H].
  apply (f_equal (@List.length _)) in H. now rewrite !length_map in H.
Qed.

Lemma rename_columns_absent (mapping : list (string * string)) (df : DataFrame) :
  (forall m, In m mapping -> mem (fst m) (columns df) = false) ->
  rename_columns df mapping = df.
Proof.
  unfold rename_columns.
  induction mapping as [|m mapping IH]; intros H; [reflexivity|].
  cbn [fold_left]. rewrite (H m) by now left.
  apply IH. intros m' Hm'. apply H. now right.
Qed.

(** X3. Renaming changes names only: the frame has as many columns
    as before and every record its cells, in order; a mapping none of whose
    source columns the frame has leaves the frame as it is. *)
Theorem rename_columns_keeps_cells :
  (forall df mapping,
      length (columns (rename_columns df mapping)) = length (columns df)
      /\ map (map snd) (rows (rename_columns df mapping))
         = map (map snd) (rows df))
  /\ (forall df mapping,
         (forall m, In m mapping -> mem (fst m) (columns df) = false) ->
         rename_columns df mapping = df).
Proof.
  split.
  - intros df mapping. apply rename_columns_shape.
  - intros df mapping. apply rename_columns_absent.
Qed.

Lemma rename_columns_keeps_cells_witness :
  rename_columns Sample.flags_frame Sample.mapping1 = Sample.flags_frame.
Proof.
  apply (proj2 rename_columns_keeps_cells Sample.flags_frame Sample.mapping1).
  intros m Hm. simpl in Hm.
  repeat (destruct Hm as [<-|Hm]; [reflexivity|]). destruct Hm.
Defined.

Lemma pad_fold_rows_length (l : list string) (df df' : DataFrame) :
  foldM pad_column l df = Ok df' -> length (rows df') = length (rows df).
Proof.
  revert df. induction l as [|h l IH]; intros df H.
  - injection H as <-. reflexivity.
  - cbn [foldM] in H. rewrite pad_column_Ok in H. cbn [bind] in H.
    apply IH in H. rewrite H.
    destruct (mem h (columns df)); [reflexivity|]. cbn [rows]. apply length_map.
Qed.

(** X1. In every record transform_df returns, source is the name of
    the source, etl_load_time the load time, version_number 1.0 and
    source_file_name the base name of the file; there is one record per
    record of the input. *)
Theorem transform_df_stamps (now : Z) (df : DataFrame)
    (mapping : list (string * string)) (source_name file_path : string)
    (df' : DataFrame) :
  transform_df now df mapping source_name file_path = Ok df' ->
  length (rows df') = length (rows df)
  /\ Forall (stamped source_name now file_path) (rows df').
Proof.
  unfold transform_df, pad_missing_columns. intros H.
  apply bind_Ok in H as (df1 & Hpad & H).
  apply pad_fold_rows_length in Hpad.
  rewrite rename_columns_rows_length in Hpad.
  frame_steps H. apply withColumn_Ok in H as [_ ->].
  cbn [rows]. split.
  - now rewrite !length_map.
  - rewrite !map_map. apply Forall_forall. intros r Hr.
    apply in_map_iff in Hr as (r0 & <- & _).
    unfold stamped. cbn [eval cast lit cast_value].
    repeat split; cells; reflexivity.
Qed.

Lemma transform_df_stamps_witness :
  length (rows SampleOut.transformed1) = length (rows Sample.csv1)
  /\ Forall (stamped "source1" 0
               "csv_files/Technical Exercise Data - source1.csv")
            (rows SampleOut.transformed1).
Proof.
  apply (transform_df_stamps 0 Sample.csv1 Sample.mapping1 "source1"
           "csv_files/Technical Exercise Data - source1.csv").
  vm_compute. reflexivity.
Defined.

Lemma bucket_parts (r : Row) (cs : list string) :
  flat_map (fun c => ws_parts (eval c r)) (map col cs)
  = flat_map (fun c => ws_parts (row_get c r)) cs.
Proof. induction cs as [|c cs IH]; [reflexivity|]. cbn [map flat_map eval col]. now rewrite IH. Qed.

(** X4. The bucket-style consolidation writes into ages_served, for
    every record, the non-null cells of the listed columns the frame has,
    in the order of the list and joined by a comma and a space (the empty
    string when all are null), and drops the listed columns. *)
Theorem combine_age_columns_labels (df df' : DataFrame)
    (age_columns : list string) :
  mem "ages_served" age_columns = false ->
  combine_age_columns df age_columns = Ok df' ->
  (forall c, In c age_columns -> mem c (columns df') = false)
  /\ Forall2 (fun r r' =>
                row_get "ages_served" r'
                = Str (Text.join ", " (bucket_labels (columns df) age_columns r))
                /\ forall c, In c age_columns ->
                             existsb (has_name c) r' = false)
             (rows df) (rows df').
Proof.
  intros Hs H. unfold combine_age_columns in H.
  frame_steps H. injection H as <-. unfold drop. cbn [rows columns].
  split.
  - intros c Hc. apply mem_dropped. now apply mem_In.
  - rewrite map_map. apply Forall2_map_r. intros r _. split.
    + rewrite row_get_dropped, Hs, row_get_row_with, String.eqb_refl.
      cbn [eval concat_ws]. unfold bucket_labels. now rewrite bucket_parts.
    + intros c Hc. apply has_name_dropped. now apply mem_In.
Qed.

Lemma combine_age_columns_labels_witness :
  (forall c, In c ["Ages Accepted 1"; "AA2"; "AA3"; "AA4"] ->
             mem c (columns buckets_frame_ages) = false)
  /\ Forall2 (fun r r' =>
                row_get "ages_served" r'
                = Str (Text.join ", "
                         (bucket_labels (columns buckets_frame)
                            ["Ages Accepted 1"; "AA2"; "AA3"; "AA4"] r))
                /\ forall c, In c ["Ages Accepted 1"; "AA2"; "AA3"; "AA4"] ->
                             existsb (has_name c) r' = false)
             (rows buckets_frame) (rows buckets_frame_ages).
Proof.
  exact (combine_age_columns_labels buckets_frame buckets_frame_ages
           ["Ages Accepted 1"; "AA2"; "AA3"; "AA4"] eq_refl eq_refl).
Defined.

(** ** Union *)

Lemma row_get_project (names : list string) (n : string) (r : Row) :
  In n names -> row_get n (project names r) = row_get n r.
Proof.
  unfold project.
  induction names as [|m names IH]; intros Hin; [contradiction|].
  cbn [map]. unfold row_get at 1. cbn [find]. unfold has_name at 1. cbn [fst].
  destruct (String.eqb_spec m n) as [->|Hne]; [reflexivity|].
  destruct Hin as [->|Hin]; [contradiction|]. now apply IH.
Qed.

Lemma unionByName_Ok (l r u : DataFrame) :
  unionByName l r = Ok u ->
  exists extra,
    columns u = (columns l ++ extra)%list
    /\ rows u = (map (project (columns u)) (rows l)
                 ++ map (project (columns u)) (rows r))%list.
Proof.
  unfold unionByName.
  destruct (distinct (columns l) && distinct (columns r)); [|discriminate].
  intros H. injection H as <-. cbn [columns rows]. eauto.
Qed.

Lemma union_fold (rest : list DataFrame) (a : DataFrame)
    (res : option DataFrame) :
  foldM (fun df_all df =>
           l <- the_frame df_all ;;
           r <- the_frame df ;;
           u <- unionByName l r ;;
           Ok (Some u))
        (map Some rest) (Some a) = Ok res ->
  exists u,
    res = Some u
    /\ (exists extra, columns u = (columns a ++ extra)%list)
    /\ length (rows u) = length (rows a) + length (all_rows rest)
    /\ forall n, In n (columns a) ->
                 (forall d, In d rest -> In n (columns d)) ->
                 map (row_get n) (rows u)
                 = (map (row_get n) (rows a)
                    ++ map (row_get n) (all_rows rest))%list.
Proof.
  revert a. induction rest as [|b rest IH]; intros a H.
  - injection H as <-. exists a. split; [reflexivity|].
    split; [exists []; now rewrite app_nil_r|].
    unfold all_rows. cbn [flat_map length map]. split; [lia|].
    intros. now rewrite app_nil_r.
  - cbn [map foldM the_frame bind] in H.
    destruct (unionByName a b) as [u1|e] eqn:E; [|discriminate].
    cbn [bind] in H. apply IH in H as (u & -> & [extra Hc] & Hlen & Hcells).
    destruct (unionByName_Ok _ _ _ E) as (extra1 & Hc1 & Hr1).
    exists u. split; [reflexivity|]. split; [|split].
    + exists (extra1 ++ extra)%list. now rewrite Hc, Hc1, app_assoc.
    + rewrite Hlen, Hr1, length_app, !length_map.
      unfold all_rows. cbn [flat_map]. rewrite length_app. lia.
    + intros n Hn Hall.
      assert (Hn1 : In n (columns u1)).
      { rewrite Hc1. apply in_or_app. now left. }
      rewrite Hcells; [|assumption|intros d Hd; apply Hall; now right].
      rewrite Hr1, map_app, !map_map.
      assert (Hp : forall l,
                 map (fun x => row_get n (project (columns u1) x)) l
                 = map (row_get n) l).
      { intros l. apply map_ext. intros x. apply row_get_project, Hn1. }
      rewrite !Hp.
      unfold all_rows. cbn [flat_map]. now rewrite map_app, app_assoc.
Qed.

(** X9. The union of frames holds the records of all of them, frame after
    frame: their number is the sum, the columns of the first frame come
    first, and under a column that every frame has the cells are those of
    the frames, in the order of the frames and of their records. *)
Theorem union_all_dataframes_keeps_records (dfs : list DataFrame)
    (res : option DataFrame) :
  union_all_dataframes (map Some dfs) = Ok res ->
  exists u,
    res = Some u
    /\ length (rows u) = length (all_rows dfs)
    /\ (exists extra, columns u = (columns (hd u dfs) ++ extra)%list)
    /\ forall n, (forall d, In d dfs -> In n (columns d)) ->
                 map (row_get n) (rows u) = map (row_get n) (all_rows dfs).
Proof.
  destruct dfs as [|a rest]; [discriminate|].
  cbn [map union_all_dataframes]. intros H.
  apply union_fold in H as (u & -> & Hc & Hlen & Hcells).
  exists u. split; [reflexivity|]. split; [|split].
  - unfold all_rows in *. cbn [flat_map]. now rewrite length_app.
  - exact Hc.
  - intros n Hall. unfold all_rows. cbn [flat_map]. rewrite map_app.
    apply Hcells.
    + apply Hall. now left.
    + intros d Hd. apply Hall. now right.
Qed.

Lemma union_all_dataframes_keeps_records_witness :
  exists u,
    Some (mkDF ["phone"; "capacity"]
               [ [("phone", Str "1"); ("capacity", Null)];
                 [("phone", Str "2"); ("capacity", Int 40)] ]) = Some u
    /\ length (rows u)
       = length (all_rows [ mkDF ["phone"] [[("phone", Str "1")]];
                            mkDF ["phone"; "capacity"]
                                 [[("phone", Str "2"); ("capacity", Int 40)]] ])
    /\ (exists extra,
           columns u
           = (columns (hd u [ mkDF ["phone"] [[("phone", Str "1")]];
                              mkDF ["phone"; "capacity"]
                                   [[("phone", Str "2"); ("capacity", Int 40)]] ])
              ++ extra)%list)
    /\ forall n,
        (forall d, In d [ mkDF ["phone"] [[("phone", Str "1")]];
                          mkDF ["phone"; "capacity"]
                               [[("phone", Str "2"); ("capacity", Int 40)]] ] ->
                   In n (columns d)) ->
        map (row_get n) (rows u)
        = map (row_get n)
              (all_rows [ mkDF ["phone"] [[("phone", Str "1")]];
                          mkDF ["phone"; "capacity"]
                               [[("phone", Str "2"); ("capacity", Int 40)]] ]).
Proof.
  exact (union_all_dataframes_keeps_records
           [ mkDF ["phone"] [[("phone", Str "1")]];
             mkDF ["phone"; "capacity"]
                  [[("phone", Str "2"); ("capacity", Int 40)]] ]
           _ eq_refl).
Defined.

Lemma union_fold_from_none (rest : list (option DataFrame)) :
  rest <> [] ->
  foldM (fun df_all df =>
           l <- the_frame df_all ;;
           r <- the_frame df ;;
           u <- unionByName l r ;;
           Ok (Some u))
        rest None = Raise AttributeError.
Proof. destruct rest as [|d rest]; [congruence|reflexivity]. Qed.

Lemma union_fold_with_none (rest : list (option DataFrame))
    (acc : option DataFrame) :
  In None rest ->
  exists e,
    foldM (fun df_all df =>
             l <- the_frame df_all ;;
             r <- the_frame df ;;
             u <- unionByName l r ;;
             Ok (Some u))
          rest acc = Raise e.
Proof.
  revert acc. induction rest as [|d rest IH]; intros acc Hin; [contradiction|].
  cbn [foldM].
  destruct acc as [a|]; cbn [the_frame bind]; [|eauto].
  destruct d as [b|]; cbn [the_frame bind]; [|eauto].
  destruct (unionByName a b) as [u|e]; cbn [bind]; [|eauto].
  apply IH. destruct Hin as [Hin|Hin]; [discriminate|assumption].
Qed.

(** X10. The union of no frame raises IndexError; a single entry is returned
    as it is, None included; among two entries or more, a None makes the
    union raise. *)
Theorem union_all_dataframes_edges :
  union_all_dataframes [] = Raise IndexError
  /\ (forall d, union_all_dataframes [d] = Ok d)
  /\ (forall dfs, 2 <= length dfs -> In None dfs ->
                  exists e, union_all_dataframes dfs = Raise e).
Proof.
  split; [reflexivity|]. split; [reflexivity|].
  intros dfs Hlen Hin.
  destruct dfs as [|d0 rest]; [contradiction|].
  cbn [union_all_dataframes].
  destruct Hin as [->|Hin].
  - rewrite union_fold_from_none; [eauto|].
    destruct rest; [simpl in Hlen; lia|discriminate].
  - now apply union_fold_with_none.
Qed.

Lemma union_all_dataframes_edges_witness :
  exists e,
    union_all_dataframes [Some Sample.csv1; None; Some Sample.csv3] = Raise e.
Proof.
  apply (proj2 (proj2 union_all_dataframes_edges)).
  - simpl. lia.
  - simpl. auto.
Defined.

(** ** Deduplication: columns and errors *)

Lemma analyze_app (cols a b : list string) :
  analyze cols (a ++ b) = Ok tt <->
  analyze cols a = Ok tt /\ analyze cols b = Ok tt.
Proof.
  unfold analyze. rewrite forallb_app.
  destruct (forallb (resolves cols) a), (forallb (resolves cols) b);
    cbn [andb]; split; try tauto; try discriminate;
    intros [? ?]; discriminate.
Qed.

Lemma occurrences_cols_with (cols : list string) :
  (occurrences "row_num" cols <= 1)%nat ->
  resolves (cols_with "row_num" cols) "row_num" = true.
Proof.
  unfold cols_with, resolves. intros H.
  destruct (mem "row_num" cols) eqn:E.
  - apply mem_In in E. apply Nat.eqb_eq.
    unfold occurrences in *.
    destruct (filter (String.eqb "row_num") cols) as [|x l] eqn:F.
    + exfalso. assert (Hx : In "row_num" (filter (String.eqb "row_num") cols)).
      { apply filter_In. split; [assumption|apply String.eqb_refl]. }
      rewrite F in Hx. contradiction.
    + simpl in *. lia.
  - unfold occurrences. rewrite filter_app.
    change (filter (String.eqb "row_num") ["row_num"]) with ["row_num"].
    rewrite filter_none.
    + reflexivity.
    + intros o Ho. destruct (String.eqb_spec "row_num" o) as [<-|]; [|reflexivity].
      apply mem_In in Ho. congruence.
Qed.

Lemma deduplicate_explicit (sort : Sorter) (df : DataFrame) :
  analyze (columns df) ["phone"; "address1"; "license_issued"] = Ok tt ->
  resolves (cols_with "row_num" (columns df)) "row_num" = true ->
  deduplicate_dataframe sort (Some df)
  = Ok (mkDF (without_row_num (cols_with "row_num" (columns df)))
             (survivors sort (rows df))).
Proof.
  intros Ha Hr.
  assert (H : exists df', deduplicate_dataframe sort (Some df) = Ok df'
                          /\ columns df'
                             = without_row_num (cols_with "row_num" (columns df))).
  { unfold deduplicate_dataframe, withRowNumber, filter_rows.
    cbn [the_frame bind partition_cols order_desc app].
    rewrite Ha. cbn [bind columns refs eq col lit app].
    unfold analyze. cbn [forallb]. rewrite Hr. cbn [andb bind].
    eexists. split; reflexivity. }
  destruct H as (df' & E & Hc). rewrite E. f_equal.
  pose proof (deduplicate_rows _ _ _ E) as Hrows.
  destruct df' as [c r]. cbn [columns rows] in *. now subst.
Qed.

Lemma without_row_num_cols_with (cols : list string) :
  without_row_num (cols_with "row_num" cols) = without_row_num cols.
Proof.
  unfold without_row_num, cols_with.
  destruct (mem "row_num" cols); [reflexivity|].
  rewrite filter_app.
  change (filter (fun c => negb (mem c ["row_num"])) ["row_num"])
    with (@nil string).
  apply app_nil_r.
Qed.



(** X12. The helper column of the window never leaves deduplication: the
    columns of the result are those of the input other than row_num, and
    no record of the result has a row_num cell. *)
Theorem deduplicate_dataframe_drops_row_num (sort : Sorter)
    (df df' : DataFrame) :
  deduplicate_dataframe sort (Some df) = Ok df' ->
  columns df' = without_row_num (columns df)
  /\ Forall (fun r => existsb (has_name "row_num") r = false) (rows df').
Proof.
  intros H. pose proof (deduplicate_rows _ _ _ H) as Hrows.
  unfold deduplicate_dataframe in H. cbn [the_frame bind] in H.
  apply bind_Ok in H as (df1 & H1 & H).
  apply bind_Ok in H as (df2 & H2 & H). injection H as <-.
  unfold withRowNumber in H1. apply bind_Ok in H1 as (u & _ & H1).
  injection H1 as <-.
  unfold filter_rows in H2. apply bind_Ok in H2 as (u' & _ & H2).
  injection H2 as <-.
  split.
  - unfold drop. cbn [columns]. apply without_row_num_cols_with.
  - unfold drop. cbn [rows]. apply Forall_forall. intros r Hr.
    apply in_map_iff in Hr as (r0 & <- & _).
    now apply has_name_dropped.
Qed.

Lemma deduplicate_dataframe_drops_row_num_witness :
  columns (Sample.frame_of [Sample.newer])
  = without_row_num (columns Sample.pair_frame)
  /\ Forall (fun r => existsb (has_name "row_num") r = false)
            (rows (Sample.frame_of [Sample.newer])).
Proof.
  exact (deduplicate_dataframe_drops_row_num stable_sort Sample.pair_frame
           (Sample.frame_of [Sample.newer]) eq_refl).
Defined.

(** ** Deduplication: one record per key *)

Lemma partition_survivor (sort : Sorter) (rs : list Row) (k : list Value) :
  sorts sort ->
  In k (map identity_key rs) ->
  exists h,
    In h rs /\ identity_key h = k
    /\ map (other_cells "row_num")
           (firstn 1 (sort (before "license_issued")
                        (filter (fun r => key_eqb
                                            (key_of ["phone"; "address1"] r) k)
                                rs)))
       = [other_cells "row_num" h].
Proof.
  intros Hs Hk. apply in_map_iff in Hk as (r & <- & Hr).
  assert (Hg : In r (group rs r)) by (apply in_group; auto).
  destruct (sorted_head sort "license_issued" _ _ Hs Hg)
    as (h & t & E & Hin & _).
  apply in_group in Hin as [Hin Hkey].
  exists h. repeat split; try assumption.
  unfold group, identity_key in E. unfold identity_key. now rewrite E.
Qed.

Lemma survivors_by_key (sort : Sorter) (rs : list Row) :
  sorts sort ->
  map identity_key (survivors sort rs) = identity_keys rs
  /\ Forall (fun o => exists r, In r rs /\ o = other_cells "row_num" r)
            (survivors sort rs).
Proof.
  intros Hs. unfold survivors, partitions, identity_keys.
  rewrite flat_map_map.
  assert (Hks : forall k,
             In k (nodup (list_eq_dec Value_eq_dec) (map identity_key rs)) ->
             In k (map identity_key rs)).
  { intros k. apply nodup_In. }
  change (map (key_of ["phone"; "address1"]) rs) with (map identity_key rs).
  induction (nodup (list_eq_dec Value_eq_dec) (map identity_key rs))
    as [|k ks IH].
  - split; [reflexivity|constructor].
  - cbn [flat_map].
    destruct (partition_survivor sort rs k Hs (Hks k (or_introl eq_refl)))
      as (h & Hin & Hkey & ->).
    destruct IH as [IH1 IH2]; [intros k' Hk'; apply Hks; now right|].
    split.
    + cbn [app map]. rewrite IH1, identity_key_other_cells. now subst.
    + constructor; [eauto|assumption].
Qed.



Lemma filter_own_key (rs : list Row) (r : Row) :
  NoDup (map identity_key rs) -> In r rs ->
  filter (fun o => key_eqb (key_of ["phone"; "address1"] o) (identity_key r)) rs
  = [r].
Proof.
  induction rs as [|x rs IH]; intros Hnd Hin; [contradiction|].
  cbn [map] in Hnd. apply NoDup_cons_iff in Hnd as [Hx Hnd].
  cbn [filter]. fold (identity_key x).
  destruct Hin as [->|Hin].
  - replace (key_eqb (identity_key r) (identity_key r)) with true
      by (symmetry; now apply key_eqb_eq).
    f_equal. apply filter_none. intros o Ho.
    destruct (key_eqb (key_of ["phone"; "address1"] o) (identity_key r)) eqn:E;
      [|reflexivity].
    apply key_eqb_eq in E. exfalso. apply Hx. fold (identity_key o) in E.
    rewrite <- E. now apply in_map.
  - destruct (key_eqb (identity_key x) (identity_key r)) eqn:E.
    + apply key_eqb_eq in E. exfalso. apply Hx. rewrite E. now apply in_map.
    + now apply IH.
Qed.

Lemma flat_map_singletons {A B : Type} (f : A -> list B) (g : A -> B)
    (l : list A) :
  (forall a, In a l -> f a = [g a]) -> flat_map f l = map g l.
Proof.
  induction l as [|a l IH]; intros H; [reflexivity|].
  cbn [flat_map map]. rewrite (H a) by now left.
  cbn [app]. f_equal. apply IH. intros b Hb. apply H. now right.
Qed.

Lemma survivors_distinct (sort : Sorter) (rs : list Row) :
  sorts sort -> NoDup (map identity_key rs) ->
  survivors sort rs = map (other_cells "row_num") rs.
Proof.
  intros Hs Hnd. unfold survivors, partitions.
  change (map (key_of ["phone"; "address1"]) rs) with (map identity_key rs).
  rewrite (nodup_fixed_point _ Hnd), flat_map_map, flat_map_map.
  apply flat_map_singletons. intros r Hr.
  rewrite (filter_own_key rs r Hnd Hr).
  destruct (Hs (before "license_issued") (before_total _) (before_trans _) [r])
    as [Hp _].
  apply Permutation_length_1_inv in Hp. now rewrite Hp.
Qed.



(** ** Deduplication twice; selection *)

Lemma deduplicate_Ok_inv (sort : Sorter) (df df' : DataFrame) :
  deduplicate_dataframe sort (Some df) = Ok df' ->
  analyze (columns df) ["phone"; "address1"; "license_issued"] = Ok tt
  /\ columns df' = without_row_num (columns df)
  /\ rows df' = survivors sort (rows df).
Proof.
  intros H. pose proof (deduplicate_rows _ _ _ H) as Hrows.
  unfold deduplicate_dataframe in H. cbn [the_frame bind] in H.
  apply bind_Ok in H as (df1 & H1 & H).
  apply bind_Ok in H as (df2 & H2 & H). injection H as <-.
  unfold withRowNumber in H1. apply bind_Ok in H1 as ([] & Ha & H1).
  injection H1 as <-.
  unfold filter_rows in H2. apply bind_Ok in H2 as (u' & _ & H2).
  injection H2 as <-.
  split; [exact Ha|]. split; [|exact Hrows].
  unfold drop. cbn [columns]. apply without_row_num_cols_with.
Qed.

Lemma filter_filter_implied {A : Type} (f g : A -> bool) (l : list A) :
  (forall x, f x = true -> g x = true) ->
  filter f (filter g l) = filter f l.
Proof.
  intros H. induction l as [|a l IH]; [reflexivity|].
  cbn [filter]. destruct (g a) eqn:G.
  - cbn [filter]. destruct (f a); now rewrite IH.
  - destruct (f a) eqn:F; [|exact IH].
    apply H in F. congruence.
Qed.

Lemma occurrences_without_row_num (n : string) (cols : list string) :
  n <> "row_num" ->
  occurrences n (without_row_num cols) = occurrences n cols.
Proof.
  intros Hn. unfold occurrences, without_row_num.
  rewrite filter_filter_implied; [reflexivity|].
  intros x Hx. apply String.eqb_eq in Hx. subst x.
  unfold mem. cbn [existsb]. rewrite orb_false_r.
  now destruct (String.eqb_spec n "row_num").
Qed.

Lemma no_row_num_without (cols : list string) :
  occurrences "row_num" (without_row_num cols) = 0.
Proof.
  unfold occurrences. rewrite filter_none; [reflexivity|].
  intros o Ho. unfold without_row_num in Ho. apply filter_In in Ho as [_ Ho].
  destruct (String.eqb_spec "row_num" o) as [<-|]; [|reflexivity].
  discriminate Ho.
Qed.

Lemma other_cells_idem (n : string) (r : Row) :
  other_cells n (other_cells n r) = other_cells n r.
Proof. unfold other_cells. apply filter_idem. Qed.

(** X15. Deduplication is idempotent: applied to its own result it returns
    that result. *)
Theorem deduplicate_dataframe_idempotent (sort : Sorter) (df df' : DataFrame) :
  sorts sort ->
  deduplicate_dataframe sort (Some df) = Ok df' ->
  deduplicate_dataframe sort (Some df') = Ok df'.
Proof.
  intros Hs H. apply deduplicate_Ok_inv in H as (Ha & Hc & Hr).
  destruct (survivors_by_key sort (rows df) Hs) as [Hk Hin].
  destruct df' as [c r]. cbn [columns rows] in *. subst c r.
  rewrite deduplicate_explicit; cbn [columns rows].
  - rewrite without_row_num_cols_with.
    assert (Hw : without_row_num (without_row_num (columns df))
                 = without_row_num (columns df))
      by (unfold without_row_num; apply filter_idem).
    rewrite Hw. f_equal. f_equal.
    rewrite survivors_distinct; [|assumption|rewrite Hk; apply NoDup_nodup].
    rewrite <- (map_id (survivors sort (rows df))) at 2.
    apply map_ext_in. intros o Ho. rewrite Forall_forall in Hin.
    destruct (Hin o Ho) as (r0 & _ & ->). apply other_cells_idem.
  - unfold analyze in *. cbn [forallb] in *.
    unfold resolves in *.
    rewrite !occurrences_without_row_num by discriminate. exact Ha.
  - apply occurrences_cols_with. rewrite no_row_num_without. lia.
Qed.

Lemma deduplicate_dataframe_idempotent_witness :
  deduplicate_dataframe stable_sort (Some (Sample.frame_of [Sample.newer]))
  = Ok (Sample.frame_of [Sample.newer]).
Proof.
  exact (deduplicate_dataframe_idempotent stable_sort Sample.pair_frame
           (Sample.frame_of [Sample.newer]) stable_sort_sorts eq_refl).
Defined.



(** ** The run, the loop over the files, failures *)

Lemma mapM_Ok {A B : Type} (f : A -> Result B) (l : list A) (bs : list B) :
  mapM f l = Ok bs -> Forall2 (fun a b => f a = Ok b) l bs.
Proof.
  revert bs. induction l as [|a l IH]; intros bs H.
  - injection H as <-. constructor.
  - cbn [mapM] in H. apply bind_Ok in H as (b & Hb & H).
    apply bind_Ok in H as (bs' & Hbs & H). injection H as <-.
    constructor; auto.
Qed.

Lemma mapM_Raise {A B : Type} (f : A -> Result B) (l : list A) (a : A) :
  In a l -> (exists e, f a = Raise e) -> exists e, mapM f l = Raise e.
Proof.
  intros Hin [e He]. induction l as [|x l IH]; [contradiction|].
  cbn [mapM]. destruct Hin as [->|Hin].
  - rewrite He. cbn [bind]. eauto.
  - destruct (f x); cbn [bind]; [|eauto].
    destruct (IH Hin) as [e' ->]. cbn [bind]. eauto.
Qed.

Section RunFacts.

Variable column_mappings : list (string * list (string * string)).
Variable read_csv : string -> Result DataFrame.
Variable parse_date : string -> string -> option Z.
Variable current_timestamp : Z.
Variable sort : Sorter.
Variable getenv : string -> option string.
Variable jdbc_write : DataFrame -> string -> string -> string -> Result unit.

(** X17. A run ends well only when the sink has accepted the very frame the
    run returns, written to the table child_care_info in mode overwrite at
    the address of DB_URL (or the default address); when the sink refuses
    that frame, the run raises the sink's error. *)
Theorem main_hands_result_to_sink :
  (forall df,
      main column_mappings read_csv parse_date current_timestamp sort getenv
        jdbc_write = Ok df ->
      jdbc_write df (db_url_of getenv) "child_care_info" "overwrite" = Ok tt
      /\ main column_mappings read_csv parse_date current_timestamp sort
           getenv accepting_sink = Ok df)
  /\ (forall df e,
         main column_mappings read_csv parse_date current_timestamp sort
           getenv accepting_sink = Ok df ->
         jdbc_write df (db_url_of getenv) "child_care_info" "overwrite"
         = Raise e ->
         main column_mappings read_csv parse_date current_timestamp sort
           getenv jdbc_write = Raise e).
Proof.
  unfold main, write_to_postgres, db_url_of, accepting_sink.
  destruct (process_all_files column_mappings read_csv parse_date
              current_timestamp get_csv_files) as [dfs|e0]; cbn [bind];
    [|split; intros; discriminate].
  destruct (union_all_dataframes dfs) as [u|e0]; cbn [bind];
    [|split; intros; discriminate].
  destruct (deduplicate_dataframe sort u) as [d|e0]; cbn [bind];
    [|split; intros; discriminate].
  destruct (select_target_columns d target_columns) as [s|e0]; cbn [bind];
    [|split; intros; discriminate].
  split.
  - intros df H.
    destruct (jdbc_write s _ _ _) as [[]|e0] eqn:E; cbn [bind] in H;
      [|discriminate].
    injection H as <-. auto.
  - intros df e H W. injection H as <-. now rewrite W.
Qed.

(** X8. process_all_files gives one entry per file, in the order of the
    files, each the result of process_csv_file on that file; when
    process_csv_file raises on a file, process_all_files raises. *)
Theorem process_all_files_each :
  (forall csv_files dfs,
      process_all_files column_mappings read_csv parse_date current_timestamp
        csv_files = Ok dfs ->
      Forall2 (fun entry d =>
                 process_csv_file column_mappings read_csv parse_date
                   current_timestamp (snd entry) (fst entry) = Ok d)
              csv_files dfs)
  /\ (forall csv_files entry,
         In entry csv_files ->
         (exists e, process_csv_file column_mappings read_csv parse_date
                      current_timestamp (snd entry) (fst entry) = Raise e) ->
         exists e, process_all_files column_mappings read_csv parse_date
                     current_timestamp csv_files = Raise e).
Proof.
  split.
  - intros csv_files dfs H. now apply mapM_Ok in H.
  - intros csv_files entry Hin He. unfold process_all_files.
    now apply (mapM_Raise _ _ entry).
Qed.


End RunFacts.

Lemma main_hands_result_to_sink_witness :
  (Sample.jdbc_write SampleOut.run_result (db_url_of Sample.getenv)
     "child_care_info" "overwrite" = Ok tt
   /\ main Sample.column_mappings Sample.read_csv Sample.parse_date 0
        stable_sort Sample.getenv accepting_sink = Ok SampleOut.run_result)
  /\ main Sample.column_mappings Sample.read_csv Sample.parse_date 0
       stable_sort Sample.getenv refusing_sink = Raise IOError.
Proof.
  split.
  - apply (proj1 (main_hands_result_to_sink Sample.column_mappings
                    Sample.read_csv Sample.parse_date 0 stable_sort
                    Sample.getenv Sample.jdbc_write)).
    vm_compute. reflexivity.
  - apply (proj2 (main_hands_result_to_sink Sample.column_mappings
                    Sample.read_csv Sample.parse_date 0 stable_sort
                    Sample.getenv refusing_sink) SampleOut.run_result).
    + vm_compute. reflexivity.
    + reflexivity.
Defined.

Lemma process_all_files_each_witness :
  Forall2 (fun entry d =>
             process_csv_file Sample.column_mappings_without_source2
               Sample.read_csv Sample.parse_date 0 (snd entry) (fst entry)
             = Ok d)
          [("source2", "csv_files/Technical Exercise Data - source2.csv")]
          [None]
  /\ exists e,
      process_all_files Sample.column_mappings Sample.read_csv
        Sample.parse_date 0 [("source1", "no such file")] = Raise e.
Proof.
  split.
  - apply (proj1 (process_all_files_each
                    Sample.column_mappings_without_source2 Sample.read_csv
                    Sample.parse_date 0)).
    vm_compute. reflexivity.
  - apply (proj2 (process_all_files_each Sample.column_mappings
                    Sample.read_csv Sample.parse_date 0)
             _ ("source1", "no such file")).
    + simpl. auto.
    + exists IOError. vm_compute. reflexivity.
Defined.


(** ** What process_csv_file returns *)

Lemma same_cell_refl (k : string) (df : DataFrame) : same_cell k df df.
Proof.
  unfold same_cell. induction (rows df); constructor; auto.
Qed.

Lemma same_cell_trans (k : string) (a b c : DataFrame) :
  same_cell k a b -> same_cell k b c -> same_cell k a c.
Proof.
  unfold same_cell. generalize (rows a) (rows b) (rows c).
  intros la lb lc H. revert lc.
  induction H as [|x y la lb Hxy H IH]; intros lc H'; inversion H'; subst;
    constructor; [congruence|auto].
Qed.

Lemma withColumn_same_cell (k n : string) (c : Column) (df df' : DataFrame) :
  withColumn df n c = Ok df' -> String.eqb k n = false -> same_cell k df df'.
Proof.
  intros H Hk. apply withColumn_Ok in H as [_ ->].
  unfold same_cell. cbn [rows]. apply Forall2_map_r. intros r _.
  now rewrite row_get_row_with, Hk.
Qed.

Lemma withColumn_sets (n : string) (c : Column) (df df' : DataFrame) :
  withColumn df n c = Ok df' ->
  Forall2 (fun r r' => row_get n r' = eval c r) (rows df) (rows df').
Proof.
  intros H. apply withColumn_Ok in H as [_ ->].
  cbn [rows]. apply Forall2_map_r. intros r _.
  now rewrite row_get_row_with, String.eqb_refl.
Qed.

Lemma drop_same_cell (k : string) (names : list string) (df : DataFrame) :
  mem k names = false -> same_cell k df (drop df names).
Proof.
  intros Hk. unfold same_cell, drop. cbn [rows].
  apply Forall2_map_r. intros r _. now rewrite row_get_dropped, Hk.
Qed.

Lemma withColumn_mem (x n : string) (c : Column) (df df' : DataFrame) :
  withColumn df n c = Ok df' ->
  mem x (columns df) = true -> mem x (columns df') = true.
Proof.
  intros H Hx. apply withColumn_Ok in H as [_ ->]. cbn [columns].
  now apply mem_cols_with.
Qed.

Lemma drop_mem (x : string) (names : list string) (df : DataFrame) :
  mem x names = false ->
  mem x (columns df) = true -> mem x (columns (drop df names)) = true.
Proof.
  intros Hn Hx. unfold drop. cbn [columns]. apply mem_In.
  apply filter_In. split; [now apply mem_In|]. now rewrite Hn.
Qed.

Lemma same_cell_Forall (k : string) (P : Value -> Prop) (df df' : DataFrame) :
  same_cell k df df' ->
  Forall (fun r => P (row_get k r)) (rows df) ->
  Forall (fun r => P (row_get k r)) (rows df').
Proof.
  unfold same_cell. intros H. induction H as [|r r' l l' E H IH]; intros HP.
  - constructor.
  - inversion HP; subst. constructor; [now rewrite E|auto].
Qed.

Lemma sets_Forall (k : string) (P : Value -> Prop) (f : Row -> Value)
    (l l' : list Row) :
  Forall2 (fun r r' => row_get k r' = f r) l l' ->
  (forall r, P (f r)) ->
  Forall (fun r => P (row_get k r)) l'.
Proof.
  intros H HP. induction H as [|r r' l l' E H IH]; constructor; auto.
  rewrite E. apply HP.
Qed.

Lemma target_not_dropped (c : string) :
  In c target_columns -> mem c dropped_names = false.
Proof.
  intros H.
  assert (A : forallb (fun c => negb (mem c dropped_names)) target_columns
              = true) by reflexivity.
  rewrite forallb_forall in A. apply A in H. now apply negb_true_iff in H.
Qed.

Lemma mem_false_app (x : string) (a b : list string) :
  mem x (a ++ b) = false -> mem x a = false /\ mem x b = false.
Proof. rewrite mem_app. apply orb_false_elim. Qed.

Lemma mem_false_eqb (k n : string) (names : list string) :
  mem k names = false -> In n names -> String.eqb k n = false.
Proof.
  intros Hm Hin. destruct (String.eqb_spec k n) as [->|]; [|reflexivity].
  apply mem_In in Hin. congruence.
Qed.

Ltac step_same_cell W HW :=
  repeat match goal with
    | H : withColumn ?a ?n _ = Ok ?b |- same_cell ?k ?a _ =>
        apply (same_cell_trans k a b);
        [ apply (withColumn_same_cell k n _ a b H);
          apply (mem_false_eqb k n W HW); simpl; tauto
        | clear H ]
    end.

Ltac step_mem :=
  repeat match goal with
    | H : withColumn ?a _ _ = Ok ?b, M : mem ?x (columns ?a) = true |- _ =>
        apply (withColumn_mem x _ _ a b H) in M; clear H
    end.

Lemma clean_phone_step (df df' : DataFrame) :
  clean_phone df "phone" = Ok df' ->
  keeps_targets df df'
  /\ (forall k, String.eqb k "phone" = false -> same_cell k df df')
  /\ Forall (fun r => digits_or_null (row_get "phone" r)) (rows df').
Proof.
  unfold clean_phone. intros H. split; [|split].
  - intros c _ Hc. now apply (withColumn_mem _ _ _ _ _ H).
  - intros k Hk. now apply (withColumn_same_cell _ _ _ _ _ H).
  - apply (sets_Forall "phone" digits_or_null _ _ _ (withColumn_sets _ _ _ _ H)).
    intros r. cbn [eval regexp_replace col].
    destruct (row_get "phone" r); cbn [on_string digits_or_null]; auto.
    rewrite replace_non_digits. apply digits_only_all_digits.
Qed.

Lemma license_name_handling_step (df df' : DataFrame) :
  license_name_handling df = Ok df' ->
  keeps_targets df df'
  /\ (forall k, mem k ["licensee_name"; "name_parts"; "first_name";
                       "last_name"] = false ->
                same_cell k df df')
  /\ Forall (fun r => is_string (row_get "last_name" r)) (rows df').
Proof.
  unfold license_name_handling. intros H.
  apply bind_Ok in H as (d1 & H1 & H). apply bind_Ok in H as (d2 & H2 & H).
  apply bind_Ok in H as (d3 & H3 & H). apply bind_Ok in H as (d4 & H4 & H).
  injection H as <-. split; [|split].
  - intros c Hc M. apply drop_mem.
    + pose proof (target_not_dropped c Hc) as D.
      unfold dropped_names, mem in D. cbn [existsb] in D.
      apply orb_false_elim in D as [D _].
      unfold mem. cbn [existsb]. now rewrite D.
    + step_mem. assumption.
  - intros k Hk.
    step_same_cell ["licensee_name"; "name_parts"; "first_name"; "last_name"] Hk.
    apply drop_same_cell. unfold mem in *. cbn [existsb] in *.
    apply orb_false_elim in Hk as [_ Hk]. apply orb_false_elim in Hk as [Hk _].
    now rewrite Hk.
  - apply (same_cell_Forall "last_name" is_string d4);
      [now apply drop_same_cell|].
    apply (sets_Forall "last_name" is_string _ _ _ (withColumn_sets _ _ _ _ H4)).
    intros r. cbn [eval when_otherwise isNotNull getItem col lit].
    destruct (row_get "name_parts" r) as [| | | | | |l]; cbn [is_string]; auto.
    destruct (nth_error l 1) as [[s|]|]; cbn [is_string]; auto.
Qed.

Lemma dates_step (parse : string -> string -> option Z) (df df' : DataFrame) :
  foldM (fun df date_col =>
           if mem date_col (columns df)
           then withColumn df date_col
                  (to_date parse (col date_col) "M/d/yy")
           else Ok df)
        ["license_issued"; "certificate_expiration_date"] df = Ok df' ->
  mem "license_issued" (columns df) = true ->
  mem "certificate_expiration_date" (columns df) = true ->
  keeps_targets df df'
  /\ (forall k, mem k ["license_issued"; "certificate_expiration_date"]
                = false -> same_cell k df df')
  /\ Forall (fun r => date_or_null (row_get "license_issued" r)) (rows df')
  /\ Forall (fun r => date_or_null (row_get "certificate_expiration_date" r))
            (rows df').
Proof.
  intros H M1 M2. cbn [foldM] in H. rewrite M1 in H.
  apply bind_Ok in H as (d1 & H1 & H).
  rewrite (withColumn_mem _ _ _ _ _ H1 M2) in H.
  apply bind_Ok in H as (d2 & H2 & H). injection H as <-.
  assert (Hd : forall c r, date_or_null
                             (eval (to_date parse (col c) "M/d/yy") r)).
  { intros c r. cbn [eval to_date col].
    destruct (row_get c r); cbn [on_string date_or_null]; auto.
    destruct (parse s "M/d/yy"); exact I. }
  split; [|split; [|split]].
  - intros c _ M. step_mem. assumption.
  - intros k Hk.
    step_same_cell ["license_issued"; "certificate_expiration_date"] Hk.
    apply same_cell_refl.
  - apply (same_cell_Forall "license_issued" date_or_null d1);
      [now apply (withColumn_same_cell _ _ _ _ _ H2)|].
    apply (sets_Forall _ _ _ _ _ (withColumn_sets _ _ _ _ H1)). apply Hd.
  - apply (sets_Forall _ _ _ _ _ (withColumn_sets _ _ _ _ H2)). apply Hd.
Qed.

Lemma cast_numeric_fields_step (df df' : DataFrame) :
  cast_numeric_fields df = Ok df' ->
  mem "capacity" (columns df) = true ->
  mem "license_number" (columns df) = true ->
  keeps_targets df df'
  /\ (forall k, mem k ["capacity"; "license_number"] = false ->
                same_cell k df df')
  /\ Forall (fun r => int_or_null (row_get "capacity" r)) (rows df')
  /\ Forall (fun r => int_or_null (row_get "license_number" r)) (rows df').
Proof.
  unfold cast_numeric_fields. intros H M1 M2. rewrite M1 in H.
  apply bind_Ok in H as (d1 & H1 & H).
  rewrite (withColumn_mem _ _ _ _ _ H1 M2) in H. rename H into H2.
  assert (Hi : forall v, int_or_null (cast_value IntegerType v)).
  { intros v. destruct v; cbn [cast_value int_or_null]; auto.
    destruct (Text.to_int s); exact I. }
  split; [|split; [|split]].
  - intros c _ M. step_mem. assumption.
  - intros k Hk. step_same_cell ["capacity"; "license_number"] Hk.
    apply same_cell_refl.
  - apply (same_cell_Forall "capacity" int_or_null d1);
      [now apply (withColumn_same_cell _ _ _ _ _ H2)|].
    apply (sets_Forall _ _ _ _ _ (withColumn_sets _ _ _ _ H1)).
    intros r. apply Hi.
  - apply (sets_Forall _ _ _ _ _ (withColumn_sets _ _ _ _ H2)).
    intros r. apply Hi.
Qed.

Lemma ages_step (source_name : string) (df df' : DataFrame) :
  (if String.eqb source_name "source2"
   then combine_age_columns df ["Ages Accepted 1"; "AA2"; "AA3"; "AA4"]
   else if String.eqb source_name "source3"
   then combine_age_columns_source3 df
          ["Infant"; "Toddler"; "Preschool"; "School"]
   else Ok df) = Ok df' ->
  keeps_targets df df'
  /\ (forall k, mem k ("ages_served" :: dropped_names) = false ->
                same_cell k df df').
Proof.
  intros H.
  assert (Hsub : forall names c,
             (forall n, In n names -> In n dropped_names) ->
             In c target_columns -> mem c names = false).
  { intros names c Hn Hc. destruct (mem c names) eqn:E; [|reflexivity].
    apply mem_In, Hn, mem_In in E.
    now rewrite (target_not_dropped c Hc) in E. }
  assert (Hsub' : forall names k,
             (forall n, In n names -> In n dropped_names) ->
             mem k ("ages_served" :: dropped_names) = false ->
             mem k names = false).
  { intros names k Hn Hk. destruct (mem k names) eqn:E; [|reflexivity].
    apply mem_In, Hn in E.
    assert (E' : mem k ("ages_served" :: dropped_names) = true)
      by (apply mem_In; now right).
    congruence. }
  destruct (String.eqb source_name "source2");
    [|destruct (String.eqb source_name "source3")].
  - unfold combine_age_columns in H.
    apply bind_Ok in H as (d1 & H1 & H). injection H as <-. split.
    + intros c Hc M. apply drop_mem.
      * apply Hsub; [|assumption]. unfold dropped_names. simpl. tauto.
      * step_mem. assumption.
    + intros k Hk.
      step_same_cell ("ages_served" :: dropped_names) Hk.
      apply drop_same_cell. apply Hsub'; [|assumption].
      unfold dropped_names. simpl. tauto.
  - unfold combine_age_columns_source3 in H.
    apply bind_Ok in H as (d1 & H1 & H). apply bind_Ok in H as (d2 & H2 & H).
    injection H as <-. split.
    + intros c Hc M. apply drop_mem.
      * apply Hsub; [|assumption]. unfold dropped_names. simpl. tauto.
      * step_mem. assumption.
    + intros k Hk.
      step_same_cell ("ages_served" :: dropped_names) Hk.
      apply drop_same_cell. apply Hsub'; [|assumption].
      unfold dropped_names. simpl. tauto.
  - injection H as <-. split; [intros c _ M; exact M|].
    intros k _. apply same_cell_refl.
Qed.

Lemma transform_df_rows (now : Z) (df : DataFrame)
    (mapping : list (string * string)) (source_name file_path : string)
    (df' : DataFrame) :
  transform_df now df mapping source_name file_path = Ok df' ->
  length (rows df') = length (rows df)
  /\ Forall (stamped source_name now file_path) (rows df').
Proof.
  unfold transform_df, pad_missing_columns. intros H.
  apply bind_Ok in H as (df1 & Hpad & H).
  apply pad_fold_rows_length in Hpad.
  rewrite rename_columns_rows_length in Hpad.
  frame_steps H. apply withColumn_Ok in H as [_ ->].
  cbn [rows]. split.
  - now rewrite !length_map.
  - rewrite !map_map. apply Forall_forall. intros r Hr.
    apply in_map_iff in Hr as (r0 & <- & _).
    unfold stamped. cbn [eval cast lit cast_value].
    repeat split; cells; reflexivity.
Qed.

Lemma same_cell_length (k : string) (df df' : DataFrame) :
  same_cell k df df' -> length (rows df') = length (rows df).
Proof. intros H. symmetry. exact (Forall2_length H). Qed.

Lemma process_csv_file_inv
    (column_mappings : list (string * list (string * string)))
    (read_csv : string -> Result DataFrame)
    (parse_date : string -> string -> option Z) (now : Z)
    (file_path source_name : string) (df : DataFrame) :
  process_csv_file column_mappings read_csv parse_date now file_path
    source_name = Ok (Some df) ->
  exists raw,
    read_csv file_path = Ok raw
    /\ length (rows df) = length (rows raw)
    /\ (forall c, In c target_columns -> mem c (columns df) = true)
    /\ Forall (processed source_name now file_path) (rows df).
Proof.
  unfold process_csv_file. intros H.
  apply bind_Ok in H as (raw & Hraw & H).
  destruct (dict_get column_mappings source_name) as [mapping|];
    [|discriminate].
  cbv zeta in H.
  apply bind_Ok in H as (d0 & H0 & H). apply bind_Ok in H as (d1 & H1 & H).
  apply bind_Ok in H as (d2 & H2 & H). apply bind_Ok in H as (d3 & H3 & H).
  apply bind_Ok in H as (d4 & H4 & H). apply bind_Ok in H as (d5 & H5 & H).
  apply bind_Ok in H as (d6 & H6 & H). injection H as <-.
  exists raw. split; [assumption|].
  assert (L0 : length (rows d0) = length (rows raw)).
  { destruct (String.eqb source_name "source3").
    - apply withColumn_Ok in H0 as [_ ->]. cbn [rows]. apply length_map.
    - now injection H0 as <-. }
  destruct (transform_df_rows _ _ _ _ _ _ H1) as [L1 S1].
  destruct (transform_df_padded _ _ _ _ _ _ H1) as [T1 _].
  destruct (clean_phone_step _ _ H2) as (K2 & C2 & P2).
  assert (T2 : forall c, In c target_columns -> mem c (columns d2) = true)
    by (intros c Hc; apply K2; auto).
  rewrite (T2 "licensee_name") in H3 by (simpl; tauto).
  destruct (license_name_handling_step _ _ H3) as (K3 & C3 & N3).
  assert (T3 : forall c, In c target_columns -> mem c (columns d3) = true)
    by (intros c Hc; apply K3; auto).
  assert (M3a : mem "license_issued" (columns d3) = true)
    by (apply T3; simpl; tauto).
  assert (M3b : mem "certificate_expiration_date" (columns d3) = true)
    by (apply T3; simpl; tauto).
  destruct (dates_step _ _ _ H4 M3a M3b) as (K4 & C4 & D4 & D4').
  assert (T4 : forall c, In c target_columns -> mem c (columns d4) = true)
    by (intros c Hc; apply K4; auto).
  assert (M4a : mem "capacity" (columns d4) = true)
    by (apply T4; simpl; tauto).
  assert (M4b : mem "license_number" (columns d4) = true)
    by (apply T4; simpl; tauto).
  destruct (cast_numeric_fields_step _ _ H5 M4a M4b) as (K5 & C5 & I5 & I5').
  assert (T5 : forall c, In c target_columns -> mem c (columns d5) = true)
    by (intros c Hc; apply K5; auto).
  destruct (ages_step _ _ _ H6) as (K6 & C6).
  assert (A5 : forall k, mem k ("ages_served" :: dropped_names) = false ->
                         same_cell k d5 d6) by exact C6.
  assert (A4 : forall k, mem k ["capacity"; "license_number"] = false ->
                         mem k ("ages_served" :: dropped_names) = false ->
                         same_cell k d4 d6).
  { intros k a b. eapply same_cell_trans; eauto. }
  assert (A3 : forall k,
             mem k ["license_issued"; "certificate_expiration_date"] = false ->
             mem k ["capacity"; "license_number"] = false ->
             mem k ("ages_served" :: dropped_names) = false ->
             same_cell k d3 d6).
  { intros k a b c. eapply same_cell_trans; eauto. }
  assert (A2 : forall k,
             mem k ["licensee_name"; "name_parts"; "first_name"; "last_name"]
             = false ->
             mem k ["license_issued"; "certificate_expiration_date"] = false ->
             mem k ["capacity"; "license_number"] = false ->
             mem k ("ages_served" :: dropped_names) = false ->
             same_cell k d2 d6).
  { intros k a b c d. eapply same_cell_trans; eauto. }
  assert (A1 : forall k,
             String.eqb k "phone" = false ->
             mem k ["licensee_name"; "name_parts"; "first_name"; "last_name"]
             = false ->
             mem k ["license_issued"; "certificate_expiration_date"] = false ->
             mem k ["capacity"; "license_number"] = false ->
             mem k ("ages_served" :: dropped_names) = false ->
             same_cell k d1 d6).
  { intros k a b c d e. eapply same_cell_trans; eauto. }
  split; [|split].
  - rewrite (same_cell_length "source" d1 d6) by (apply A1; reflexivity).
    congruence.
  - intros c Hc. apply K6; auto.
  - assert (Hst : Forall (fun r => row_get "source" r = Str source_name)
                    (rows d6)
                  /\ Forall (fun r => row_get "etl_load_time" r = Timestamp now)
                       (rows d6)
                  /\ Forall (fun r => row_get "version_number" r = Str "1.0")
                       (rows d6)
                  /\ Forall (fun r => row_get "source_file_name" r
                                      = Str (Text.basename file_path))
                       (rows d6)).
    { repeat split.
      - apply (same_cell_Forall "source" (fun v => v = Str source_name) d1);
          [apply A1; reflexivity|].
        eapply Forall_impl; [|exact S1]. intros r Hr. apply Hr.
      - apply (same_cell_Forall "etl_load_time" (fun v => v = Timestamp now)
                 d1); [apply A1; reflexivity|].
        eapply Forall_impl; [|exact S1]. intros r Hr. apply Hr.
      - apply (same_cell_Forall "version_number" (fun v => v = Str "1.0") d1);
          [apply A1; reflexivity|].
        eapply Forall_impl; [|exact S1]. intros r Hr. apply Hr.
      - apply (same_cell_Forall "source_file_name"
                 (fun v => v = Str (Text.basename file_path)) d1);
          [apply A1; reflexivity|].
        eapply Forall_impl; [|exact S1]. intros r Hr. apply Hr. }
    destruct Hst as (Q1 & Q2 & Q3 & Q4).
    pose proof (same_cell_Forall "phone" digits_or_null d2 d6
                  (A2 "phone" eq_refl eq_refl eq_refl eq_refl) P2) as Q5.
    pose proof (same_cell_Forall "license_issued" date_or_null d4 d6
                  (A4 "license_issued" eq_refl eq_refl) D4) as Q6.
    pose proof (same_cell_Forall "certificate_expiration_date" date_or_null
                  d4 d6 (A4 "certificate_expiration_date" eq_refl eq_refl)
                  D4') as Q7.
    pose proof (same_cell_Forall "capacity" int_or_null d5 d6
                  (A5 "capacity" eq_refl) I5) as Q8.
    pose proof (same_cell_Forall "license_number" int_or_null d5 d6
                  (A5 "license_number" eq_refl) I5') as Q9.
    pose proof (same_cell_Forall "last_name" is_string d3 d6
                  (A3 "last_name" eq_refl eq_refl eq_refl) N3) as Q10.
    rewrite Forall_forall in *.
    intros r Hr. unfold processed, stamped. repeat split; auto.
Qed.

(** X6. A frame that process_csv_file returns has one record per record of
    the file it read, and has every target column: the later selection of
    the target columns cannot miss one. *)
Theorem process_csv_file_shape
    (column_mappings : list (string * list (string * string)))
    (read_csv : string -> Result DataFrame)
    (parse_date : string -> string -> option Z) (now : Z)
    (file_path source_name : string) (df : DataFrame) :
  process_csv_file column_mappings read_csv parse_date now file_path
    source_name = Ok (Some df) ->
  exists raw,
    read_csv file_path = Ok raw
    /\ length (rows df) = length (rows raw)
    /\ forall c, In c target_columns -> mem c (columns df) = true.
Proof.
  intros H. apply process_csv_file_inv in H as (raw & Hr & Hl & Hc & _).
  eauto.
Qed.

Lemma process_csv_file_shape_witness :
  exists raw,
    Sample.read_csv "csv_files/Technical Exercise Data - source2.csv" = Ok raw
    /\ length (rows processed2) = length (rows raw)
    /\ forall c, In c target_columns -> mem c (columns processed2) = true.
Proof.
  apply (process_csv_file_shape Sample.column_mappings Sample.read_csv
           Sample.parse_date 0
           "csv_files/Technical Exercise Data - source2.csv" "source2").
  vm_compute. reflexivity.
Defined.

(** X7. In every record that process_csv_file returns: source is the name
    of the source, version_number is 1.0, source_file_name the base name of
    the file and etl_load_time the load time; phone is null or a string of
    digits; license_issued and certificate_expiration_date are null or
    dates; capacity and license_number are null or integers; last_name is
    a string, never null. *)
Theorem process_csv_file_cells
    (column_mappings : list (string * list (string * string)))
    (read_csv : string -> Result DataFrame)
    (parse_date : string -> string -> option Z) (now : Z)
    (file_path source_name : string) (df : DataFrame) :
  process_csv_file column_mappings read_csv parse_date now file_path
    source_name = Ok (Some df) ->
  Forall (processed source_name now file_path) (rows df).
Proof.
  intros H. now apply process_csv_file_inv in H as (raw & _ & _ & _ & Hp).
Qed.

Lemma process_csv_file_cells_witness :
  Forall (processed "source2" 0
            "csv_files/Technical Exercise Data - source2.csv")
         (rows processed2).
Proof.
  apply (process_csv_file_cells Sample.column_mappings Sample.read_csv
           Sample.parse_date 0
           "csv_files/Technical Exercise Data - source2.csv" "source2").
  vm_compute. reflexivity.
Defined.

(** ** The records of a run *)






Section RunRecords.

Variable column_mappings : list (string * list (string * string)).
Variable read_csv : string -> Result DataFrame.
Variable parse_date : string -> string -> option Z.
Variable current_timestamp : Z.
Variable sort : Sorter.
Variable getenv : string -> option string.
Variable jdbc_write : DataFrame -> string -> string -> string -> Result unit.
Hypothesis sort_sorts : sorts sort.


End RunRecords.

